(** * SWE-Gym OpenHands client: a shallow embedding of [src/client/client.py]

    The client talks to one HTTP endpoint.  Everything it does to the
    outside world (GET, POST, sleeping, logging, printing) is recorded in a
    trace carried by an explicit world state; the answers of the network
    are an oracle stored in that world.  Python exceptions are the [Raise]
    outcome of a small state-and-error monad. *)

From Stdlib Require Import Ascii String QArith Qround.
From stdpp Require Import gmap strings list pretty.

Local Open Scope Z_scope.
Local Open Scope string_scope.
Local Open Scope list_scope.
Local Set Warnings "-register-all".

(** ** Python values *)

(** JSON-shaped Python values: what [json.loads] produces and what
    [requests] serialises.  Python's [None] is [JNull]. *)
Inductive Json : Type :=
| JNull
| JBool (b : bool)
| JInt (z : Z)
| JFloat (q : Q)
| JStr (s : string)
| JList (l : list Json)
| JDict (d : gmap string Json).

(** The exceptions the module can see.  [RequestException] stands for
    [requests.RequestException] and all of its subclasses; [PyException] is
    the plain [Exception] the module raises itself; [ValueError] is raised
    by the libraries (a negative sleep, a timeout that is not positive, a
    body that is not JSON). *)
Inductive exn : Type :=
| RequestException (msg : string)
| ValueError (msg : string)
| PyException (msg : string).

(** [except requests.RequestException] *)
Definition is_request_exception (e : exn) : bool :=
  match e with
  | RequestException _ => true
  | _ => false
  end.

(** [str(e)] *)
Definition str_exn (e : exn) : string :=
  match e with
  | RequestException msg | ValueError msg | PyException msg => msg
  end.

Inductive Outcome (A : Type) : Type :=
| Ok (a : A)
| Raise (e : exn).
Arguments Ok {A} a.
Arguments Raise {A} e.

(** A [requests.Response]: the status, the body as text, and what calling
    [.json()] on it does (the decoder belongs to the library). *)
Record Response : Type := mkResponse {
  status_code : Z;
  text : string;
  json : Outcome Json
}.

(** What one HTTP call comes back with: a response; a network-level
    failure (timeout, refused connection, DNS failure) that [requests]
    reports as a [RequestException] with the given message; or no exchange
    at all, because the library turns the call down for its arguments.  A
    call turned down for a timeout that is not positive ends in a
    [ValueError]; one turned down for another reason (a bad url or header)
    ends in a [RequestException] with the given message. *)
Inductive HttpResult : Type :=
| Responded (r : Response)
| Failed (msg : string)
| Refused (msg : string).

(** ** The world *)

Inductive Level : Type := INFO | WARNING | ERROR.

Inductive Event : Type :=
| EGet (url : string) (hdrs : gmap string string) (tmo : Z)
| EPost (url : string) (hdrs : gmap string string)
        (payload : gmap string Json) (tmo : Z)
| ESleep (secs : Z)
| ELog (lvl : Level) (msg : string)
| EPrint (s : string).

(** [net w i] is the result of the [i]-th HTTP call, [sent w] the number of
    calls made so far, [now w] the reading of [time.time()], and [trace w]
    everything done so far, oldest first. *)
Record World : Type := mkWorld {
  net : nat -> HttpResult;
  now : Q;
  sent : nat;
  trace : list Event
}.

Definition emit (e : Event) (w : World) : World :=
  mkWorld (net w) (now w) (sent w) (trace w ++ [e]).

(** ** The monad *)

Definition M (A : Type) : Type := World -> Outcome A * World.

Definition ret {A} (a : A) : M A := fun w => (Ok a, w).

Definition raise {A} (e : exn) : M A := fun w => (Raise e, w).

Definition bind {A B} (m : M A) (k : A -> M B) : M B :=
  fun w =>
    match m w with
    | (Ok a, w') => k a w'
    | (Raise e, w') => (Raise e, w')
    end.

(** [try: body except <catches> as e: handler e].  The effects of the body
    up to the exception stay. *)
Definition try_except {A} (body : M A) (catches : exn -> bool)
    (handler : exn -> M A) : M A :=
  fun w =>
    match body w with
    | (Ok a, w') => (Ok a, w')
    | (Raise e, w') => if catches e then handler e w' else (Raise e, w')
    end.

Declare Scope py_scope.
Delimit Scope py_scope with py.
Notation "x <- m ;; k" := (bind m (fun x => k))
  (at level 100, m at next level, right associativity) : py_scope.
Notation "m ;;; k" := (bind m (fun _ => k))
  (at level 100, right associativity) : py_scope.
Local Open Scope py_scope.

(** ** Library calls *)

(** [str(n)] on an int, also what an f-string does with it. *)
Definition str_int (n : Z) : string := pretty n.

(** The error of the transport layer for [timeout=tmo] with [tmo <= 0]. *)
Definition invalid_timeout (tmo : Z) : exn :=
  ValueError
    ("Attempted to set connect timeout to " +:+ str_int tmo
       +:+ ", but the timeout cannot be set to a value less than or equal to 0.").

(** How a call made with [timeout=tmo] ends, by what came back.  A call
    whose timeout is not positive is never answered and never reaches the
    network: what comes back for it is [Refused]. *)
Definition http_outcome (tmo : Z) (r : HttpResult) : Outcome Response :=
  match r with
  | Responded resp => Ok resp
  | Failed msg => Raise (RequestException msg)
  | Refused msg =>
      if bool_decide (tmo <= 0) then Raise (invalid_timeout tmo)
      else Raise (RequestException msg)
  end.

(** [requests.get(url, headers=..., timeout=...)] *)
Definition requests_get (url : string) (hdrs : gmap string string)
    (tmo : Z) : M Response :=
  fun w =>
    (http_outcome tmo (net w (sent w)),
     mkWorld (net w) (now w) (S (sent w)) (trace w ++ [EGet url hdrs tmo])).

(** [requests.post(url, headers=..., json=..., timeout=...)] *)
Definition requests_post (url : string) (hdrs : gmap string string)
    (payload : gmap string Json) (tmo : Z) : M Response :=
  fun w =>
    (http_outcome tmo (net w (sent w)),
     mkWorld (net w) (now w) (S (sent w))
             (trace w ++ [EPost url hdrs payload tmo])).

(** [response.json()] *)
Definition response_json (r : Response) : M Json :=
  fun w => (json r, w).

(** [time.time()] *)
Definition time_time : M Q := fun w => (Ok (now w), w).

(** [time.sleep(secs)]: a negative length is a [ValueError]. *)
Definition time_sleep (secs : Z) : M unit :=
  fun w =>
    if bool_decide (secs < 0) then
      (Raise (ValueError "sleep length must be non-negative"), w)
    else
      (Ok tt,
       mkWorld (net w) (now w + inject_Z secs)%Q (sent w)
               (trace w ++ [ESleep secs])).

Definition logger_log (lvl : Level) (msg : string) : M unit :=
  fun w => (Ok tt, emit (ELog lvl msg) w).

(** [print(s)] *)
Definition print (s : string) : M unit :=
  fun w => (Ok tt, emit (EPrint s) w).

(** [int(x)] on a float: truncation towards zero. *)
Definition py_int (x : Q) : Z := Z.quot (Qnum x) (Z.pos (Qden x)).

(** [range(n)] *)
Definition py_range (n : Z) : list Z := Z.of_nat <$> seq 0 (Z.to_nat n).

(** [s.rstrip(c)] for a one-character set. *)
Fixpoint rstrip (c : ascii) (s : string) : string :=
  match s with
  | EmptyString => EmptyString
  | String a s' =>
      match rstrip c s' with
      | EmptyString =>
          if bool_decide (a = c) then EmptyString else String a EmptyString
      | r => String a r
      end
  end.

(** Truthiness of an [Optional[str]]: [None] and the empty string are
    false. *)
Definition truthy (o : option string) : bool :=
  match o with
  | None => false
  | Some s => negb (bool_decide (s = ""))
  end.

(** An [Optional[str]] as a value inside a dictionary. *)
Definition json_of_optional_str (o : option string) : Json :=
  match o with
  | None => JNull
  | Some s => JStr s
  end.

(** ** The client *)

Record SWEGymClient : Type := mkClient {
  server_url : string;
  api_key : string;
  timeout : Z;
  max_retries : Z;
  retry_delay : Z;
  headers : gmap string string
}.

Definition slash : ascii := "/"%char.

Definition make_headers (key : string) : gmap string string :=
  <["Content-Type" := "application/json"]>
    {["Authorization" := "Bearer " +:+ key]}.

(** [SWEGymClient.check_connection] *)
Definition check_connection (self : SWEGymClient) : M bool :=
  try_except
    (response <- requests_get (server_url self +:+ "/api/health")
                              (headers self) (timeout self) ;;
     if bool_decide (status_code response = 200) then
       logger_log INFO "Successfully connected to OpenHands server" ;;;
       ret true
     else
       logger_log WARNING
         ("Server returned status code " +:+ str_int (status_code response)) ;;;
       ret false)
    is_request_exception
    (fun e =>
       logger_log ERROR ("Failed to connect to server: " +:+ str_exn e) ;;;
       ret false).

(** [SWEGymClient.__init__]; an omitted keyword argument is [None] here and
    takes the default of the signature. *)
Definition __init__ (url key : string) (tmo retries delay : option Z)
    : M SWEGymClient :=
  let self :=
    mkClient (rstrip slash url) key (default 60 tmo) (default 3 retries)
             (default 2 delay) (make_headers key) in
  check_connection self ;;;
  ret self.

(** Lines 97-98 of [execute_tool]: the conversation id in use. *)
Definition resolve_conversation_id (conversation_id : option string)
    : M string :=
  match conversation_id with
  | None => t <- time_time ;; ret ("conv-" +:+ str_int (py_int t))
  | Some c => ret c
  end.

(** Lines 100-107 of [execute_tool]: the payload dictionary. *)
Definition build_payload (tool : string) (parameters : Json)
    (instance_id : option string) (conversation_id : string)
    : gmap string Json :=
  let payload : gmap string Json :=
    <["conversation_id" := JStr conversation_id]>
      (<["parameters" := parameters]> {["tool" := JStr tool]}) in
  if truthy instance_id then
    <["instance_id" := json_of_optional_str instance_id]> payload
  else payload.

Definition attempts_msg (self : SWEGymClient) (attempt : Z) : string :=
  str_int (attempt + 1) +:+ "/" +:+ str_int (max_retries self).

Definition failure_msg (self : SWEGymClient) (detail : string) : string :=
  "Failed to execute tool after " +:+ str_int (max_retries self)
    +:+ " attempts: " +:+ detail.

(** How one pass through the body of the [for] loop ends when it does not
    raise: with the [return] statement, or at the end of the body. *)
Inductive Control : Type :=
| Return_ (v : Json)
| Continue.

(** Lines 123-126 and 131-134: sleep before the next attempt, or give up. *)
Definition sleep_or_fail (self : SWEGymClient) (attempt : Z)
    (detail : string) : M Control :=
  if bool_decide (attempt < max_retries self - 1) then
    time_sleep (retry_delay self) ;;;
    ret Continue
  else raise (PyException (failure_msg self detail)).

(** Lines 110-134 of [execute_tool]: the body of the loop. *)
Definition attempt_body (self : SWEGymClient) (payload : gmap string Json)
    (attempt : Z) : M Control :=
  try_except
    (response <- requests_post (server_url self +:+ "/api/v1/execute")
                               (headers self) payload (timeout self) ;;
     if bool_decide (status_code response = 200) then
       v <- response_json response ;;
       ret (Return_ v)
     else
       logger_log WARNING
         ("Attempt " +:+ attempts_msg self attempt
            +:+ " failed with status " +:+ str_int (status_code response)
            +:+ ": " +:+ text response) ;;;
       sleep_or_fail self attempt (text response))
    is_request_exception
    (fun e =>
       logger_log ERROR
         ("Request error on attempt " +:+ attempts_msg self attempt
            +:+ ": " +:+ str_exn e) ;;;
       sleep_or_fail self attempt (str_exn e)).

(** The [for attempt in ...] loop; [None] when the loop runs off its end. *)
Fixpoint retry_loop (self : SWEGymClient) (payload : gmap string Json)
    (attempts : list Z) : M (option Json) :=
  match attempts with
  | [] => ret None
  | attempt :: rest =>
      c <- attempt_body self payload attempt ;;
      match c with
      | Return_ v => ret (Some v)
      | Continue => retry_loop self payload rest
      end
  end.

(** [SWEGymClient.execute_tool]; falling off the end of the function
    returns Python's [None]. *)
Definition execute_tool (self : SWEGymClient) (tool : string)
    (parameters : Json) (instance_id conversation_id : option string)
    : M Json :=
  conversation_id <- resolve_conversation_id conversation_id ;;
  let payload := build_payload tool parameters instance_id conversation_id in
  r <- retry_loop self payload (py_range (max_retries self)) ;;
  ret (default JNull r).

(** [SWEGymClient.execute_bash] *)
Definition execute_bash (self : SWEGymClient) (command : string)
    (instance_id conversation_id : option string) : M Json :=
  execute_tool self "execute_bash" (JDict {["command" := JStr command]})
               instance_id conversation_id.

(** [SWEGymClient.execute_python] *)
Definition execute_python (self : SWEGymClient) (code : string)
    (instance_id conversation_id : option string) : M Json :=
  execute_tool self "execute_ipython_cell" (JDict {["code" := JStr code]})
               instance_id conversation_id.

(** [SWEGymClient.edit_file]; [start] and [end] default to 1 and -1. *)
Definition edit_file (self : SWEGymClient) (path new_content_draft : string)
    (start end_ : option Z) (instance_id conversation_id : option string)
    : M Json :=
  execute_tool self "edit_file"
    (JDict (<["end" := JInt (default (-1) end_)]>
           (<["start" := JInt (default 1 start)]>
           (<["new_content_draft" := JStr new_content_draft]>
            {["path" := JStr path]}))))
    instance_id conversation_id.

(** ** The command line *)

Record Args : Type := mkArgs {
  server : string;
  key : string;
  tool : string;
  params : string;
  instance : option string
}.

Section CommandLine.

(** The standard library's JSON codec: [json.loads], [None] when it
    raises [JSONDecodeError], and [json.dumps(obj, indent=n)]. *)
Variable json_loads : string -> option Json.
Variable json_dumps : Json -> Z -> string.

(** [main], after [parser.parse_args()]. *)
Definition main (args : Args) : M unit :=
  client <- __init__ (server args) (key args) None None None ;;
  match json_loads (params args) with
  | None =>
      logger_log ERROR "Invalid JSON in params argument" ;;;
      ret tt
  | Some parameters =>
      result <- execute_tool client (tool args) parameters
                             (instance args) None ;;
      print (json_dumps result 2)
  end.

End CommandLine.

(** ** Reading traces *)

Definition is_network (e : Event) : bool :=
  match e with
  | EGet _ _ _ | EPost _ _ _ _ => true
  | _ => false
  end.

Definition is_sleep (e : Event) : bool :=
  match e with
  | ESleep _ => true
  | _ => false
  end.

(** The HTTP calls of a trace, in order. *)
Definition network_calls (evs : list Event) : list Event :=
  List.filter is_network evs.

(** The HTTP calls and the sleeps of a trace, in order. *)
Definition schedule (evs : list Event) : list Event :=
  List.filter (fun e => is_network e || is_sleep e) evs.

(** The payloads POSTed in a trace, in order. *)
Definition posted_payloads (evs : list Event) : list (gmap string Json) :=
  omap (fun e => match e with
                 | EPost _ _ payload _ => Some payload
                 | _ => None
                 end) evs.

(** The one POST [execute_tool] issues, possibly several times. *)
Definition post_event (self : SWEGymClient) (payload : gmap string Json)
    : Event :=
  EPost (server_url self +:+ "/api/v1/execute") (headers self) payload
        (timeout self).

(** The one GET [check_connection] issues. *)
Definition health_event (self : SWEGymClient) : Event :=
  EGet (server_url self +:+ "/api/health") (headers self) (timeout self).

(** [x; sep; x; ...; sep; x] with [n] copies of [x]. *)
Fixpoint interleave {A} (sep x : A) (n : nat) : list A :=
  match n with
  | O => []
  | S O => [x]
  | S n' => x :: sep :: interleave sep x n'
  end.

(** [w'] is [w] after [k] more HTTP calls and the events [evs]; the
    network oracle is the same. *)
Definition extends (w w' : World) (k : nat) (evs : list Event) : Prop :=
  net w' = net w /\ sent w' = (sent w + k)%nat /\ trace w' = trace w ++ evs.

(** The world right after the POST of an attempt. *)
Definition posted (self : SWEGymClient) (payload : gmap string Json)
    (w : World) : World :=
  mkWorld (net w) (now w) (S (sent w)) (trace w ++ [post_event self payload]).

Definition warning_event (self : SWEGymClient) (attempt : Z) (r : Response)
    : Event :=
  ELog WARNING
    ("Attempt " +:+ attempts_msg self attempt
       +:+ " failed with status " +:+ str_int (status_code r)
       +:+ ": " +:+ text r).

Definition error_event (self : SWEGymClient) (attempt : Z) (e : exn)
    : Event :=
  ELog ERROR
    ("Request error on attempt " +:+ attempts_msg self attempt
       +:+ ": " +:+ str_exn e).

(** The conversation id [execute_tool] uses when started in world [w]. *)
Definition conversation_id_at (w : World) (conversation_id : option string)
    : string :=
  match conversation_id with
  | None => "conv-" +:+ str_int (py_int (now w))
  | Some c => c
  end.

(** The world right after the GET of the probe and its log line. *)
Definition probed (self : SWEGymClient) (lvl : Level) (msg : string)
    (w : World) : World :=
  mkWorld (net w) (now w) (S (sent w))
          (trace w ++ [health_event self; ELog lvl msg]).



(** The client [main] builds from its arguments. *)
Definition client_of (args : Args) : SWEGymClient :=
  mkClient (rstrip slash (server args)) (key args) 60 3 2
           (make_headers (key args)).

Definition is_digit (c : ascii) : bool :=
  let n := N_of_ascii c in ((48 <=? n) && (n <=? 57))%N.

Fixpoint all_digits (s : string) : bool :=
  match s with
  | EmptyString => true
  | String c s' => is_digit c && all_digits s'
  end.

Definition nonempty_digits (s : string) : bool :=
  match s with
  | EmptyString => false
  | _ => all_digits s
  end.

(** An integer in decimal: an optional minus sign, then digits. *)
Definition is_integer_literal (s : string) : bool :=
  match s with
  | EmptyString => false
  | String c s' =>
      if bool_decide (c = "-"%char) then nonempty_digits s'
      else nonempty_digits s
  end.

Fixpoint strip_prefix (p s : string) : option string :=
  match p, s with
  | EmptyString, _ => Some s
  | String a p', String b s' =>
      if bool_decide (a = b) then strip_prefix p' s' else None
  | String _ _, EmptyString => None
  end.

(** The pattern [conv-<integer>]. *)
Definition matches_conv_pattern (s : string) : bool :=
  match strip_prefix "conv-" s with
  | Some rest => is_integer_literal rest
  | None => false
  end.

(** ** Failed attempts

    What a failed attempt logs and what it reports as the detail of the
    failure, by the answer its POST got: a status other than 200, a 200
    whose decoding ends in a [RequestException], or a [RequestException]
    of the call itself.  [None] when the answer does not make the attempt
    fail that way. *)
Definition attempt_failure (self : SWEGymClient) (attempt : Z)
    (h : HttpResult) : option (Event * string) :=
  match http_outcome (timeout self) h with
  | Ok r =>
      if bool_decide (status_code r = 200) then
        match json r with
        | Ok _ => None
        | Raise e =>
            if is_request_exception e
            then Some (error_event self attempt e, str_exn e)
            else None
        end
      else Some (warning_event self attempt r, text r)
  | Raise e =>
      if is_request_exception e
      then Some (error_event self attempt e, str_exn e)
      else None
  end.

(** The events of attempt number [i] of a call started in [w0], when that
    attempt fails: the POST, the log line, and the sleep unless the attempt
    is the last one allowed. *)
Definition attempt_events (self : SWEGymClient) (payload : gmap string Json)
    (w0 : World) (i : nat) : list Event :=
  match attempt_failure self (Z.of_nat i) (net w0 (sent w0 + i)%nat) with
  | Some (ev, _) =>
      [post_event self payload; ev] ++
      (if bool_decide (Z.of_nat i < max_retries self - 1)
       then [ESleep (retry_delay self)] else [])
  | None => [post_event self payload]
  end.

(** What a trace printed, in order. *)
Definition printed (evs : list Event) : list string :=
  omap (fun e => match e with
                 | EPrint s => Some s
                 | _ => None
                 end) evs.

(** The keys of the payload: three, and [instance_id] when one is sent. *)
Definition payload_keys (instance_id : option string) : gset string :=
  if truthy instance_id
  then {["tool"; "parameters"; "conversation_id"; "instance_id"]}
  else {["tool"; "parameters"; "conversation_id"]}.

(** A network that fails [k] times, then answers with [r]. *)
Definition flaky (k : nat) (r : Response) (i : nat) : HttpResult :=
  if bool_decide (i < k)%nat then Failed "Read timed out" else Responded r.

(** A decoder that knows one string. *)
Definition decoder_accepting (good : string) (v : Json) (s : string)
    : option Json :=
  if bool_decide (s = good) then Some v else None.

(** ** Sample worlds and arguments

    A server that is busy, with the defaults of the constructor. *)
Definition busy : Response := mkResponse 503 "busy" (Raise (ValueError "")).

Definition world0 (answers : nat -> HttpResult) : World :=
  mkWorld answers 1700000000.25%Q 0 [].

Definition client0 : SWEGymClient :=
  mkClient "http://vm:8000" "k" 60 3 2 (make_headers "k").

(** A server that answers 200 with an empty object. *)
Definition fine : Response := mkResponse 200 "{}" (Ok (JDict ∅)).

(** A command line whose [--params] is not JSON, and a decoder that turns
    it down. *)
Definition bad_args : Args :=
  mkArgs "http://vm:8000/" "k" "execute_bash" "{not json" None.

Definition decoder_rejecting (bad : string) (s : string) : option Json :=
  if bool_decide (s = bad) then None else Some (JStr s).

(** ** World-passing lemmas *)

Lemma extends_refl w : extends w w 0 [].
Proof.
  unfold extends. rewrite Nat.add_0_r, app_nil_r. done.
Qed.

Lemma extends_trans w1 w2 w3 k1 k2 evs1 evs2 :
  extends w1 w2 k1 evs1 -> extends w2 w3 k2 evs2 ->
  extends w1 w3 (k1 + k2) (evs1 ++ evs2).
Proof.
  intros (Hn1 & Hs1 & Ht1) (Hn2 & Hs2 & Ht2).
  unfold extends. rewrite Hn2, Hn1, Hs2, Hs1, Ht2, Ht1, app_assoc.
  split_and!; [done | lia | done].
Qed.

Lemma extends_posted self payload w :
  extends w (posted self payload w) 1 [post_event self payload].
Proof.
  unfold extends, posted; simpl. split_and!; [done | lia | done].
Qed.

(** The three ways [sleep_or_fail] ends. *)
Lemma sleep_or_fail_spec self attempt detail w :
  (attempt < max_retries self - 1 /\ 0 <= retry_delay self /\
   sleep_or_fail self attempt detail w =
     (Ok Continue,
      mkWorld (net w) (now w + inject_Z (retry_delay self))%Q (sent w)
              (trace w ++ [ESleep (retry_delay self)])))
  \/ (attempt < max_retries self - 1 /\ retry_delay self < 0 /\
       sleep_or_fail self attempt detail w =
         (Raise (ValueError "sleep length must be non-negative"), w))
  \/ (max_retries self - 1 <= attempt /\
       sleep_or_fail self attempt detail w =
         (Raise (PyException (failure_msg self detail)), w)).
Proof.
  unfold sleep_or_fail, bind, time_sleep, ret, raise.
  repeat case_bool_decide; [right; left | left | right; right];
    split_and!; try done; lia.
Qed.

(** Split a run [H : sleep_or_fail _ _ _ _ = _] into those three. *)
Ltac sleep_or_fail_cases H :=
  match type of H with
  | sleep_or_fail ?self ?attempt ?detail ?w = _ =>
      let E := fresh "E" in
      destruct (sleep_or_fail_spec self attempt detail w)
        as [(_ & _ & E) | [(_ & _ & E) | (_ & E)]];
      rewrite E in H
  end.

Lemma sleep_or_fail_frame self attempt detail w o w' :
  sleep_or_fail self attempt detail w = (o, w') ->
  exists evs, extends w w' 0 evs /\ network_calls evs = [] /\
              posted_payloads evs = [].
Proof.
  intros H.
  sleep_or_fail_cases H; simplify_eq.
  - exists [ESleep (retry_delay self)]. unfold extends; simpl.
    split_and!; [done | lia | done..].
  - exists []. auto using extends_refl.
  - exists []. auto using extends_refl.
Qed.

Lemma sleep_or_fail_not_caught self attempt detail w e w' :
  sleep_or_fail self attempt detail w = (Raise e, w') ->
  is_request_exception e = false.
Proof.
  intros H.
  sleep_or_fail_cases H; by simplify_eq.
Qed.

(** One pass through the loop body, by what the network answers. *)
Lemma attempt_body_eq self payload attempt w :
  attempt_body self payload attempt w =
    match net w (sent w) with
    | Responded r =>
        if bool_decide (status_code r = 200) then
          match json r with
          | Ok v => (Ok (Return_ v), posted self payload w)
          | Raise e =>
              if is_request_exception e then
                sleep_or_fail self attempt (str_exn e)
                  (emit (error_event self attempt e) (posted self payload w))
              else (Raise e, posted self payload w)
          end
        else
          sleep_or_fail self attempt (text r)
            (emit (warning_event self attempt r) (posted self payload w))
    | Failed msg =>
        sleep_or_fail self attempt msg
          (emit (error_event self attempt (RequestException msg))
                (posted self payload w))
    | Refused msg =>
        if bool_decide (timeout self <= 0) then
          (Raise (invalid_timeout (timeout self)), posted self payload w)
        else
          sleep_or_fail self attempt msg
            (emit (error_event self attempt (RequestException msg))
                  (posted self payload w))
    end.
Proof.
  unfold attempt_body, try_except, bind at 1, requests_post.
  fold (post_event self payload). fold (posted self payload w).
  destruct (net w (sent w)) as [r | msg | msg]; simpl.
  - case_bool_decide.
    + unfold bind, response_json, ret. destruct (json r) as [v | e]; [done |].
      by destruct (is_request_exception e).
    + unfold bind at 1, logger_log. fold (warning_event self attempt r).
      destruct (sleep_or_fail _ _ _ _) as [[c | e] w'] eqn:E; [done |].
      by rewrite (sleep_or_fail_not_caught _ _ _ _ _ _ E).
  - by unfold bind, logger_log.
  - case_bool_decide; [done |]. by unfold bind, logger_log.
Qed.

Lemma extends_emit_posted self payload e w :
  extends w (emit e (posted self payload w)) 1 [post_event self payload; e].
Proof.
  unfold extends, emit, posted; simpl. rewrite <- app_assoc.
  split_and!; [done | lia | done].
Qed.

(** Whatever happens, one pass makes exactly one HTTP call: the POST of the
    payload, first. *)
Lemma attempt_body_frame self payload attempt w o w' :
  attempt_body self payload attempt w = (o, w') ->
  exists evs, extends w w' 1 (post_event self payload :: evs) /\
              network_calls evs = [] /\ posted_payloads evs = [].
Proof.
  rewrite attempt_body_eq. intros H.
  assert (Hlog : forall e detail,
    is_network e = false ->
    sleep_or_fail self attempt detail (emit e (posted self payload w))
      = (o, w') ->
    exists evs, extends w w' 1 (post_event self payload :: evs) /\
                network_calls evs = [] /\ posted_payloads evs = []).
  { intros e detail Hn E.
    apply sleep_or_fail_frame in E as (evs & Hext & Hnet & Hpay).
    exists (e :: evs).
    pose proof (extends_trans _ _ _ _ _ _ _
                  (extends_emit_posted self payload e w) Hext) as Hx.
    split_and!; [exact Hx | |].
    - unfold network_calls in *. simpl. by rewrite Hn.
    - by destruct e. }
  destruct (net w (sent w)) as [r | msg | msg].
  - case_bool_decide.
    + destruct (json r) as [v | e].
      * simplify_eq. exists []. auto using extends_posted.
      * destruct (is_request_exception e).
        -- by apply Hlog in H.
        -- simplify_eq. exists []. auto using extends_posted.
    + by apply Hlog in H.
  - by apply Hlog in H.
  - case_bool_decide; [| by apply Hlog in H].
    simplify_eq. exists []. auto using extends_posted.
Qed.

(** The loop only ever re-sends the payload it was given. *)
Lemma retry_loop_frame self payload attempts w o w' :
  retry_loop self payload attempts w = (o, w') ->
  exists k evs,
    extends w w' k evs /\
    network_calls evs = replicate k (post_event self payload) /\
    posted_payloads evs = replicate k payload /\
    (attempts <> [] -> (1 <= k)%nat) /\ (k <= length attempts)%nat.
Proof.
  revert w. induction attempts as [| a rest IH]; intros w H; simpl in H.
  - unfold ret in H. simplify_eq. exists 0%nat, [].
    split_and!; auto using extends_refl. done.
  - unfold bind in H.
    destruct (attempt_body self payload a w) as [[c | e] w1] eqn:E;
      apply attempt_body_frame in E as (evs1 & Hext1 & Hnet1 & Hpay1).
    + destruct c as [v |].
      * unfold ret in H. simplify_eq.
        exists 1%nat, (post_event self payload :: evs1).
        split_and!; [done | | | lia | simpl; lia].
        -- unfold network_calls in *. simpl. by rewrite Hnet1.
        -- simpl. by rewrite Hpay1.
      * apply IH in H as (k & evs & Hext & Hnet & Hpay & _ & Hk).
        exists (1 + k)%nat, ((post_event self payload :: evs1) ++ evs).
        split_and!; [by eapply extends_trans | | | lia | simpl; lia].
        -- unfold network_calls in *. simpl.
           by rewrite List.filter_app, Hnet1, Hnet.
        -- unfold posted_payloads in *. simpl.
           by rewrite omap_app, Hpay1, Hpay.
    + simplify_eq. exists 1%nat, (post_event self payload :: evs1).
      split_and!; [done | | | lia | simpl; lia].
      * unfold network_calls in *. simpl. by rewrite Hnet1.
      * simpl. by rewrite Hpay1.
Qed.

Lemma execute_tool_eq self tool parameters instance_id conversation_id w :
  execute_tool self tool parameters instance_id conversation_id w =
    match retry_loop self
            (build_payload tool parameters instance_id
               (conversation_id_at w conversation_id))
            (py_range (max_retries self)) w with
    | (Ok r, w') => (Ok (default JNull r), w')
    | (Raise e, w') => (Raise e, w')
    end.
Proof.
  unfold execute_tool, bind at 1, resolve_conversation_id.
  destruct conversation_id as [c |]; simpl;
    unfold bind, ret, time_time; simpl;
    by destruct (retry_loop _ _ _ _) as [[r | e] w'].
Qed.

Lemma py_range_nil n : n <= 0 -> py_range n = [].
Proof.
  intros H. unfold py_range. by replace (Z.to_nat n) with 0%nat by lia.
Qed.

Lemma py_range_length n : length (py_range n) = Z.to_nat n.
Proof. unfold py_range. by rewrite length_fmap, length_seq. Qed.

(** The HTTP calls of one [execute_tool] are copies of one POST, whose
    payload was fixed in the starting world. *)
Lemma execute_tool_frame self tool parameters instance_id conversation_id
    w o w' :
  execute_tool self tool parameters instance_id conversation_id w = (o, w') ->
  let payload := build_payload tool parameters instance_id
                   (conversation_id_at w conversation_id) in
  exists k evs,
    extends w w' k evs /\
    network_calls evs = replicate k (post_event self payload) /\
    posted_payloads evs = replicate k payload /\
    (1 <= max_retries self -> (1 <= k)%nat) /\
    (k <= Z.to_nat (max_retries self))%nat.
Proof.
  rewrite execute_tool_eq. intros H payload. fold payload in H.
  destruct (retry_loop self payload _ w) as [o1 w1] eqn:E.
  apply retry_loop_frame in E as (k & evs & Hext & Hnet & Hpay & Hk1 & Hk2).
  rewrite py_range_length in Hk2.
  assert (w1 = w') as -> by (destruct o1; by simplify_eq).
  exists k, evs. split_and!; try done.
  intros Hn. apply Hk1. intros Hnil.
  apply (f_equal length) in Hnil. rewrite py_range_length in Hnil.
  simpl in Hnil. lia.
Qed.

(** ** Every attempt answered with a status other than 200 *)

Lemma sleep_or_fail_retry self attempt detail w :
  attempt < max_retries self - 1 -> 0 <= retry_delay self ->
  sleep_or_fail self attempt detail w =
    (Ok Continue,
     mkWorld (net w) (now w + inject_Z (retry_delay self))%Q (sent w)
             (trace w ++ [ESleep (retry_delay self)])).
Proof.
  intros Ha Hd. unfold sleep_or_fail.
  rewrite bool_decide_true by done.
  unfold bind, time_sleep, ret. by rewrite bool_decide_false by lia.
Qed.

Lemma sleep_or_fail_last self attempt detail w :
  max_retries self - 1 <= attempt ->
  sleep_or_fail self attempt detail w =
    (Raise (PyException (failure_msg self detail)), w).
Proof.
  intros Ha. unfold sleep_or_fail. by rewrite bool_decide_false by lia.
Qed.

Lemma interleave_cons {A} (sep x : A) n :
  (1 <= n)%nat -> interleave sep x (S n) = x :: sep :: interleave sep x n.
Proof. destruct n; [lia | done]. Qed.

Lemma retry_loop_all_fail self payload k :
  forall a w,
    max_retries self = Z.of_nat (a + k) -> (1 <= k)%nat ->
    0 <= retry_delay self ->
    (forall i, (i < k)%nat ->
       exists r, net w (sent w + i)%nat = Responded r /\ status_code r <> 200) ->
    exists w' r evs,
      retry_loop self payload (Z.of_nat <$> seq a k) w =
        (Raise (PyException (failure_msg self (text r))), w') /\
      net w (sent w + k - 1)%nat = Responded r /\
      extends w w' k evs /\
      schedule evs =
        interleave (ESleep (retry_delay self)) (post_event self payload) k.
Proof.
  induction k as [| k IH]; intros a w Hmax Hk Hd Hnet; [lia |].
  destruct (Hnet 0%nat ltac:(lia)) as (r & Hr & H200).
  rewrite Nat.add_0_r in Hr.
  cbn [seq fmap list_fmap retry_loop]. unfold bind at 1.
  rewrite attempt_body_eq, Hr, bool_decide_false by done.
  destruct (decide (k = 0%nat)) as [-> | Hk0].
  - rewrite sleep_or_fail_last by lia.
    eexists _, r, _.
    split_and!.
    + reflexivity.
    + by replace (sent w + 1 - 1)%nat with (sent w) by lia.
    + apply extends_emit_posted.
    + reflexivity.
  - rewrite sleep_or_fail_retry by (done || lia).
    set (w1 := mkWorld _ _ _ _).
    assert (Hnet1 : forall i, (i < k)%nat ->
              exists ri, net w1 (sent w1 + i)%nat = Responded ri /\
                         status_code ri <> 200).
    { intros i Hi. destruct (Hnet (S i) ltac:(lia)) as (ri & Hri & Hi200).
      exists ri. split; [| done]. subst w1; simpl.
      rewrite <- Hri. f_equal. lia. }
    destruct (IH (S a) w1 ltac:(lia) ltac:(lia) Hd Hnet1)
      as (w' & r' & evs & Hrun & Hlast & Hext & Hsch).
    exists w', r',
      ([post_event self payload; warning_event self (Z.of_nat a) r;
        ESleep (retry_delay self)] ++ evs).
    split_and!.
    + exact Hrun.
    + subst w1; simpl in Hlast. rewrite <- Hlast. f_equal. lia.
    + replace (S k) with (1 + k)%nat by lia.
      eapply extends_trans; [| exact Hext].
      subst w1. unfold extends, emit, posted; simpl.
      rewrite <- !app_assoc. split_and!; [done | lia | done].
    + rewrite interleave_cons by lia. unfold schedule in *.
      rewrite List.filter_app, Hsch. reflexivity.
Qed.

(** C1: with [max_retries = n >= 1] (and a delay [time.sleep] accepts), if
    each of the [n] POSTs is answered with a status other than 200, then
    [execute_tool] makes exactly [n] HTTP calls, all of them that POST, sleeps
    [retry_delay] between consecutive attempts and not after the last one,
    and raises the exception whose message ends with the body of the [n]-th
    response. *)
Theorem C1_all_attempts_fail self tool parameters instance_id
    conversation_id w (n : nat) :
  max_retries self = Z.of_nat n -> (1 <= n)%nat -> 0 <= retry_delay self ->
  (forall i, (i < n)%nat ->
     exists r, net w (sent w + i)%nat = Responded r /\ status_code r <> 200) ->
  let payload := build_payload tool parameters instance_id
                   (conversation_id_at w conversation_id) in
  exists w' r_last evs,
    execute_tool self tool parameters instance_id conversation_id w =
      (Raise (PyException
                ("Failed to execute tool after " +:+ str_int (Z.of_nat n)
                   +:+ " attempts: " +:+ text r_last)), w') /\
    net w (sent w + n - 1)%nat = Responded r_last /\
    sent w' = (sent w + n)%nat /\
    trace w' = trace w ++ evs /\
    network_calls evs = replicate n (post_event self payload) /\
    schedule evs =
      interleave (ESleep (retry_delay self)) (post_event self payload) n.
Proof.
  intros Hmax Hn Hd Hnet payload.
  destruct (retry_loop_all_fail self payload n 0%nat w)
    as (w' & r & evs & Hrun & Hlast & Hext & Hsch); try done.
  pose proof Hrun as Hframe.
  apply retry_loop_frame in Hframe
    as (k & evs' & (_ & Hs' & Ht') & Hnc & _).
  destruct Hext as (_ & Hs & Ht).
  assert (k = n) as -> by lia.
  assert (evs' = evs) as -> by (rewrite Ht in Ht'; by simplify_list_eq).
  exists w', r, evs.
  rewrite execute_tool_eq. fold payload.
  unfold py_range. rewrite Hmax, Nat2Z.id, Hrun.
  unfold failure_msg. rewrite Hmax. done.
Qed.

Lemma C1_all_attempts_fail_witness :
  exists w' r_last evs,
    execute_tool client0 "execute_bash" JNull None (Some "c1")
                 (world0 (fun _ => Responded busy)) =
      (Raise (PyException
                ("Failed to execute tool after " +:+ str_int 3
                   +:+ " attempts: " +:+ text r_last)), w') /\
    Responded busy = Responded r_last /\
    sent w' = 3%nat /\
    trace w' = [] ++ evs /\
    network_calls evs =
      replicate 3 (post_event client0
                     (build_payload "execute_bash" JNull None "c1")) /\
    schedule evs =
      interleave (ESleep 2)
        (post_event client0 (build_payload "execute_bash" JNull None "c1")) 3.
Proof.
  apply (C1_all_attempts_fail client0 "execute_bash" JNull None (Some "c1")
           (world0 (fun _ => Responded busy)) 3).
  - reflexivity.
  - lia.
  - simpl; lia.
  - intros i _. exists busy. split; [reflexivity | simpl; lia].
Defined.

(** ** A 200 answer *)

Lemma attempt_body_success self payload attempt w r v :
  net w (sent w) = Responded r -> status_code r = 200 -> json r = Ok v ->
  attempt_body self payload attempt w = (Ok (Return_ v), posted self payload w).
Proof.
  intros Hr H200 Hv.
  by rewrite attempt_body_eq, Hr, bool_decide_true, Hv by done.
Qed.

(** A pass through the body that ends in [return] saw a 200 whose body
    decoded to the value returned. *)
Lemma attempt_body_returns self payload attempt w v w' :
  attempt_body self payload attempt w = (Ok (Return_ v), w') ->
  exists r, net w (sent w) = Responded r /\ status_code r = 200 /\
            json r = Ok v.
Proof.
  rewrite attempt_body_eq. intros H.
  assert (Hsf : forall detail w0,
            sleep_or_fail self attempt detail w0 <> (Ok (Return_ v), w')).
  { intros detail w0 E.
    sleep_or_fail_cases E; by simplify_eq. }
  destruct (net w (sent w)) as [r | msg | msg];
    [| by apply Hsf in H | case_bool_decide; [done | by apply Hsf in H]].
  case_bool_decide; [| by apply Hsf in H].
  destruct (json r) as [v0 | e] eqn:Ej.
  - simplify_eq. by exists r.
  - destruct (is_request_exception e); [by apply Hsf in H | by simplify_eq].
Qed.

Lemma retry_loop_returns self payload attempts :
  forall w v w',
    retry_loop self payload attempts w = (Ok (Some v), w') ->
    exists r, (sent w < sent w')%nat /\
              net w (sent w' - 1)%nat = Responded r /\
              status_code r = 200 /\ json r = Ok v.
Proof.
  induction attempts as [| a rest IH]; intros w v w' H; simpl in H.
  - unfold ret in H. by simplify_eq.
  - unfold bind in H.
    destruct (attempt_body self payload a w) as [[c | e] w1] eqn:E;
      [| by simplify_eq].
    destruct c as [v1 |].
    + unfold ret in H. simplify_eq.
      pose proof E as Hret.
      apply attempt_body_returns in Hret as (r & Hr & H200 & Hv).
      apply attempt_body_frame in E as (evs & (_ & Hs & _) & _).
      exists r. rewrite Hs.
      replace (sent w + 1 - 1)%nat with (sent w) by lia.
      split_and!; [lia | done..].
    + apply attempt_body_frame in E as (evs & (Hn & Hs & _) & _).
      apply IH in H as (r & Hlt & Hr & H200 & Hv).
      exists r. rewrite Hn in Hr. split_and!; [lia | done..].
Qed.

(** C2, as amended: when the first POST is answered 200 with a body that
    decodes to [v], [execute_tool] returns [v] after exactly one HTTP call,
    that POST; and whenever the retry loop ends with a [return], the last
    call made was answered 200 and the value is that body decoded. *)
Theorem C2_first_attempt_200 self tool parameters instance_id
    conversation_id w :
  let payload := build_payload tool parameters instance_id
                   (conversation_id_at w conversation_id) in
  (forall r v,
     1 <= max_retries self ->
     net w (sent w) = Responded r -> status_code r = 200 -> json r = Ok v ->
     exists w',
       execute_tool self tool parameters instance_id conversation_id w =
         (Ok v, w') /\
       sent w' = S (sent w) /\
       trace w' = trace w ++ [post_event self payload]) /\
  (forall v w',
     retry_loop self payload (py_range (max_retries self)) w =
       (Ok (Some v), w') ->
     exists r, (sent w < sent w')%nat /\
               net w (sent w' - 1)%nat = Responded r /\
               status_code r = 200 /\ json r = Ok v).
Proof.
  intros payload. split.
  - intros r v Hmax Hr H200 Hv.
    exists (posted self payload w). split; [| done].
    rewrite execute_tool_eq. fold payload. unfold py_range.
    destruct (Z.to_nat (max_retries self)) as [| m] eqn:Em; [lia |].
    cbn [seq fmap list_fmap retry_loop]. unfold bind.
    by rewrite (attempt_body_success _ _ _ _ r v).
  - intros v w'. apply retry_loop_returns.
Qed.

Lemma C2_first_attempt_200_witness :
  (exists w',
     execute_tool client0 "execute_bash" JNull None (Some "c1")
                  (world0 (fun _ => Responded fine)) = (Ok (JDict ∅), w') /\
     sent w' = 1%nat /\
     trace w' =
       [post_event client0 (build_payload "execute_bash" JNull None "c1")]) /\
  (exists r, (0 < 1)%nat /\ Responded fine = Responded r /\
             status_code r = 200 /\ json r = Ok (JDict ∅)).
Proof.
  pose proof (C2_first_attempt_200 client0 "execute_bash" JNull None
                (Some "c1") (world0 (fun _ => Responded fine))) as [H1 H2].
  split.
  - apply (H1 fine (JDict ∅)); [simpl; lia | reflexivity..].
  - apply (H2 (JDict ∅)
             (posted client0 (build_payload "execute_bash" JNull None "c1")
                     (world0 (fun _ => Responded fine)))).
    reflexivity.
Defined.

(** C2 as stated fails: a first answer of status 200 whose body is not
    JSON is not returned; the decoder's [RequestException] makes the attempt
    count as failed, the POST is sent again, and after three such answers
    [execute_tool] raises. *)
Lemma C2_counterexample :
  let garbled :=
    mkResponse 200 "<html>" (Raise (RequestException "Expecting value")) in
  let w := world0 (fun _ => Responded garbled) in
  net w (sent w) = Responded garbled /\ status_code garbled = 200 /\
  fst (execute_tool client0 "execute_bash" JNull None (Some "c1") w) =
    Raise (PyException
             "Failed to execute tool after 3 attempts: Expecting value") /\
  sent (snd (execute_tool client0 "execute_bash" JNull None (Some "c1") w))
    = 3%nat.
Proof. repeat split; vm_compute; reflexivity. Qed.

(** A 200 whose body [requests] cannot decode: when the decoder's error is
    a [RequestException] the attempt counts as failed and the POST is sent
    again; otherwise the error leaves [execute_tool] after the one call. *)
Example undecodable_200 :
  let garbled e := mkResponse 200 "<html>" (Raise e) in
  let run e := execute_tool client0 "execute_bash" JNull None (Some "c1")
                 (world0 (fun _ => Responded (garbled e))) in
  (fst (run (RequestException "Expecting value")) =
     Raise (PyException
              "Failed to execute tool after 3 attempts: Expecting value") /\
   sent (snd (run (RequestException "Expecting value"))) = 3%nat) /\
  (fst (run (ValueError "Expecting value")) =
     Raise (ValueError "Expecting value") /\
   sent (snd (run (ValueError "Expecting value"))) = 1%nat).
Proof. repeat split; vm_compute; reflexivity. Qed.

(** ** The health probe and the constructor *)

Lemma check_connection_eq self w :
  check_connection self w =
    match net w (sent w) with
    | Responded r =>
        if bool_decide (status_code r = 200) then
          (Ok true,
           probed self INFO "Successfully connected to OpenHands server" w)
        else
          (Ok false,
           probed self WARNING
             ("Server returned status code " +:+ str_int (status_code r)) w)
    | Failed msg =>
        (Ok false,
         probed self ERROR ("Failed to connect to server: " +:+ msg) w)
    | Refused msg =>
        if bool_decide (timeout self <= 0) then
          (Raise (invalid_timeout (timeout self)),
           mkWorld (net w) (now w) (S (sent w))
                   (trace w ++ [health_event self]))
        else
          (Ok false,
           probed self ERROR ("Failed to connect to server: " +:+ msg) w)
    end.
Proof.
  unfold check_connection, try_except, bind at 1, requests_get, probed.
  fold (health_event self).
  destruct (net w (sent w)) as [r | msg | msg]; simpl.
  - case_bool_decide; unfold bind, logger_log, ret, emit; simpl;
      by rewrite <- app_assoc.
  - unfold bind, logger_log, ret, emit; simpl. by rewrite <- app_assoc.
  - case_bool_decide; [done |].
    unfold bind, logger_log, ret, emit; simpl. by rewrite <- app_assoc.
Qed.

(** With a positive timeout the probe returns. *)
Lemma check_connection_run self w :
  0 < timeout self ->
  exists b lvl msg,
    check_connection self w = (Ok b, probed self lvl msg w) /\
    (b = true <->
     exists r, net w (sent w) = Responded r /\ status_code r = 200).
Proof.
  intros Htmo. rewrite check_connection_eq.
  destruct (net w (sent w)) as [r | msg | msg].
  - case_bool_decide as H200.
    + eexists true, _, _. split; [done |]. split; [| done]. by exists r.
    + eexists false, _, _. split; [done |]. split; [done |].
      intros (r' & Hr' & H'). by simplify_eq.
  - eexists false, _, _. split; [done |]. split; [done |].
    by intros (r' & Hr' & _).
  - rewrite bool_decide_false by lia.
    eexists false, _, _. split; [done |]. split; [done |].
    by intros (r' & Hr' & _).
Qed.

(** Every run of the probe: one GET, then either a returned boolean that
    tells whether the answer was a 200, or, only for a timeout that is not
    positive, the error of the transport layer. *)
Lemma check_connection_cases self w :
  exists o w' evs,
    check_connection self w = (o, w') /\
    net w' = net w /\ now w' = now w /\
    sent w' = S (sent w) /\
    trace w' = trace w ++ health_event self :: evs /\
    network_calls evs = [] /\ posted_payloads evs = [] /\ printed evs = [] /\
    match o with
    | Ok b =>
        (b = true <->
         exists r, net w (sent w) = Responded r /\ status_code r = 200) /\
        exists lvl msg, evs = [ELog lvl msg]
    | Raise e =>
        timeout self <= 0 /\ e = invalid_timeout (timeout self) /\
        evs = [] /\ exists msg, net w (sent w) = Refused msg
    end.
Proof.
  rewrite check_connection_eq.
  destruct (net w (sent w)) as [r | msg | msg] eqn:En.
  - case_bool_decide as H200; eexists _, _, [ELog _ _];
      (split_and!; [reflexivity | done.. |]); (split; [| by eexists _, _]).
    + split; [| done]. by exists r.
    + split; [done |]. intros (r' & Hr' & H'). by simplify_eq.
  - eexists _, _, [ELog _ _].
    split_and!; [reflexivity | done.. |]. split; [| by eexists _, _].
    split; [done |]. by intros (r' & Hr' & _).
  - case_bool_decide as Htmo.
    + eexists _, _, []. split_and!; [reflexivity | done.. |].
      split_and!; [done | done | done | by exists msg].
    + eexists _, _, [ELog _ _].
      split_and!; [reflexivity | done.. |]. split; [| by eexists _, _].
      split; [done |]. by intros (r' & Hr' & _).
Qed.






Lemma init_run url key tmo retries delay w :
  0 < default 60 tmo ->
  let self := mkClient (rstrip slash url) key (default 60 tmo)
                (default 3 retries) (default 2 delay) (make_headers key) in
  exists lvl msg,
    __init__ url key tmo retries delay w = (Ok self, probed self lvl msg w).
Proof.
  intros Htmo self. unfold __init__. fold self. unfold bind.
  destruct (check_connection_run self w Htmo) as (b & lvl & msg & Hrun & _).
  exists lvl, msg. by rewrite Hrun.
Qed.

(** Every run of the constructor: the probe, then the client unless the
    probe raised. *)
Lemma init_cases url key tmo retries delay w :
  let self := mkClient (rstrip slash url) key (default 60 tmo)
                (default 3 retries) (default 2 delay) (make_headers key) in
  exists o w' evs,
    __init__ url key tmo retries delay w = (o, w') /\
    net w' = net w /\ now w' = now w /\
    sent w' = S (sent w) /\
    trace w' = trace w ++ health_event self :: evs /\
    network_calls evs = [] /\ posted_payloads evs = [] /\ printed evs = [] /\
    match o with
    | Ok c => c = self /\ exists lvl msg, evs = [ELog lvl msg]
    | Raise e =>
        default 60 tmo <= 0 /\ e = invalid_timeout (default 60 tmo) /\
        evs = []
    end.
Proof.
  intros self. unfold __init__. fold self. unfold bind.
  destruct (check_connection_cases self w)
    as (o & w' & evs & Hrun & Hn & Hnow & Hs & Ht & Hnet & Hpay & Hpr & Ho).
  rewrite Hrun. destruct o as [b | e].
  - exists (Ok self), w', evs. unfold ret.
    split_and!; try done. by destruct Ho.
  - exists (Raise e), w', evs. destruct Ho as (Hle & -> & -> & _).
    split_and!; done.
Qed.




Example init_unreachable :
  fst (__init__ "http://vm:8000///" "k" None None None
            (world0 (fun _ => Failed "Connection refused")))
  = Ok client0.
Proof. reflexivity. Qed.

(** ** The command line with parameters that are not JSON *)

(** C6, as amended: when the parameters string is not JSON, [main] has
    already built the client, so the health probe (one GET) has been sent;
    then it logs the parse error and returns.  [execute_tool] is not
    called: that GET is the only HTTP call and nothing is POSTed. *)
Theorem C6_invalid_params_only_probe
    (json_loads : string -> option Json) (json_dumps : Json -> Z -> string)
    (args : Args) (w : World) :
  json_loads (params args) = None ->
  exists lvl msg w' evs,
    main json_loads json_dumps args w = (Ok tt, w') /\
    sent w' = S (sent w) /\
    trace w' = trace w ++ evs /\
    evs = [EGet (rstrip slash (server args) +:+ "/api/health")
                (make_headers (key args)) 60;
           ELog lvl msg;
           ELog ERROR "Invalid JSON in params argument"] /\
    posted_payloads evs = [].
Proof.
  intros Hbad.
  destruct (init_run (server args) (key args) None None None w
              ltac:(simpl; lia))
    as (lvl & msg & Hinit).
  simpl in Hinit. fold (client_of args) in Hinit.
  exists lvl, msg. eexists _, _.
  unfold main, bind at 1. rewrite Hinit, Hbad.
  unfold bind, logger_log, ret, emit, probed; simpl.
  rewrite <- app_assoc. simpl.
  split_and!; reflexivity.
Qed.

Lemma C6_invalid_params_only_probe_witness :
  exists lvl msg w' evs,
    main (decoder_rejecting "{not json") (fun _ _ => "") bad_args
         (world0 (fun _ => Failed "Connection refused")) = (Ok tt, w') /\
    sent w' = 1%nat /\
    trace w' = [] ++ evs /\
    evs = [EGet "http://vm:8000/api/health" (make_headers "k") 60;
           ELog lvl msg;
           ELog ERROR "Invalid JSON in params argument"] /\
    posted_payloads evs = [].
Proof.
  apply (C6_invalid_params_only_probe (decoder_rejecting "{not json")
           (fun _ _ => "") bad_args
           (world0 (fun _ => Failed "Connection refused"))).
  reflexivity.
Defined.

(** C6 as stated fails: with parameters that are not JSON, an HTTP call has
    been made by the time the parse error is reported. *)
Lemma C6_counterexample :
  decoder_rejecting "{not json" (params bad_args) = None /\
  network_calls
    (trace (snd (main (decoder_rejecting "{not json") (fun _ _ => "") bad_args
                      (world0 (fun _ => Responded fine)))))
  = [EGet "http://vm:8000/api/health" (make_headers "k") 60].
Proof. split; reflexivity. Qed.

(** ** The payload *)

Lemma build_payload_instance_id tool parameters instance_id conversation_id :
  build_payload tool parameters instance_id conversation_id !! "instance_id" =
    match instance_id with
    | None => None
    | Some i => if bool_decide (i = "") then None else Some (JStr i)
    end.
Proof.
  unfold build_payload, truthy.
  destruct instance_id as [i |]; [case_bool_decide |]; simpl;
    by simplify_map_eq.
Qed.

Lemma build_payload_fixed_keys tool parameters instance_id conversation_id :
  let payload := build_payload tool parameters instance_id conversation_id in
  payload !! "tool" = Some (JStr tool) /\
  payload !! "parameters" = Some parameters /\
  payload !! "conversation_id" = Some (JStr conversation_id).
Proof.
  unfold build_payload. destruct (truthy instance_id); simpl;
    by simplify_map_eq.
Qed.

(** Every run of [execute_tool], read as: outcome, final world, number of
    HTTP calls and events added. *)
Lemma execute_tool_run self tool parameters instance_id conversation_id w :
  let payload := build_payload tool parameters instance_id
                   (conversation_id_at w conversation_id) in
  exists o w' k evs,
    execute_tool self tool parameters instance_id conversation_id w = (o, w') /\
    sent w' = (sent w + k)%nat /\
    trace w' = trace w ++ evs /\
    network_calls evs = replicate k (post_event self payload) /\
    posted_payloads evs = replicate k payload /\
    (1 <= max_retries self -> (1 <= k)%nat).
Proof.
  intros payload.
  destruct (execute_tool self tool parameters instance_id conversation_id w)
    as [o w'] eqn:E.
  apply execute_tool_frame in E
    as (k & evs & (_ & Hs & Ht) & Hnet & Hpay & Hk & _).
  by exists o, w', k, evs.
Qed.

(** C4, as amended: every POST of a call carries the same payload; it has
    no [instance_id] key when the instance id is omitted or is the empty
    string, and has [instance_id] bound to exactly the given string when a
    non-empty one is given.  With at least one attempt allowed there is at
    least one POST. *)
Theorem C4_instance_id_key self tool parameters instance_id
    conversation_id w :
  exists o w' k evs payload,
    execute_tool self tool parameters instance_id conversation_id w = (o, w') /\
    trace w' = trace w ++ evs /\
    posted_payloads evs = replicate k payload /\
    (1 <= max_retries self -> (1 <= k)%nat) /\
    (instance_id = None -> payload !! "instance_id" = None) /\
    (instance_id = Some "" -> payload !! "instance_id" = None) /\
    (forall i, instance_id = Some i -> i <> "" ->
               payload !! "instance_id" = Some (JStr i)).
Proof.
  destruct (execute_tool_run self tool parameters instance_id
              conversation_id w)
    as (o & w' & k & evs & Hrun & _ & Ht & _ & Hpay & Hk).
  exists o, w', k, evs. eexists. split_and!; try done.
  - intros ->. by rewrite build_payload_instance_id.
  - intros ->. by rewrite build_payload_instance_id.
  - intros i -> Hi. rewrite build_payload_instance_id.
    by rewrite bool_decide_false.
Qed.

(** C4 at work: an instance id as in the docstring. *)
Lemma C4_instance_id_key_witness :
  exists k payload,
    posted_payloads
      (trace (snd (execute_tool client0 "execute_bash" JNull
                     (Some "django.14520") (Some "c1")
                     (world0 (fun _ => Responded fine))))) =
      replicate k payload /\
    (1 <= k)%nat /\
    payload !! "instance_id" = Some (JStr "django.14520").
Proof.
  destruct (C4_instance_id_key client0 "execute_bash" JNull
              (Some "django.14520") (Some "c1")
              (world0 (fun _ => Responded fine)))
    as (o & w' & k & evs & payload & Hrun & Ht & Hpay & Hk & _ & _ & Hsome).
  exists k, payload. rewrite Hrun. simpl snd. rewrite Ht. split_and!.
  - exact Hpay.
  - apply Hk. simpl. lia.
  - apply Hsome; [reflexivity | discriminate].
Defined.

(** C4 as stated fails: an instance id that is given, but empty, is left out
    of the payload. *)
Lemma C4_counterexample :
  exists payload,
    posted_payloads
      (trace (snd (execute_tool client0 "execute_bash" JNull
                     (Some "") (Some "c1")
                     (world0 (fun _ => Responded fine))))) = [payload] /\
    payload !! "instance_id" = None.
Proof.
  exists (build_payload "execute_bash" JNull (Some "") "c1").
  split; [reflexivity |]. by rewrite build_payload_instance_id.
Qed.

(** C9: in one call of [execute_tool] the payload is built once, from the
    clock as it was when the call started; every HTTP call of the run is the
    POST of that same payload, however many attempts are made and however
    far the retries' sleeps move the clock. *)
Theorem C9_payload_fixed_across_retries self tool parameters instance_id
    conversation_id w :
  let cid := match conversation_id with
             | None => "conv-" +:+ str_int (py_int (now w))
             | Some c => c
             end in
  let payload := build_payload tool parameters instance_id cid in
  exists o w' k evs,
    execute_tool self tool parameters instance_id conversation_id w = (o, w') /\
    sent w' = (sent w + k)%nat /\
    trace w' = trace w ++ evs /\
    network_calls evs =
      replicate k (EPost (server_url self +:+ "/api/v1/execute")
                         (headers self) payload (timeout self)) /\
    posted_payloads evs = replicate k payload /\
    payload !! "conversation_id" = Some (JStr cid).
Proof.
  intros cid payload.
  destruct (execute_tool_run self tool parameters instance_id
              conversation_id w)
    as (o & w' & k & evs & Hrun & Hs & Ht & Hnet & Hpay & _).
  exists o, w', k, evs. split_and!; try done.
  apply build_payload_fixed_keys.
Qed.

(** Three failed attempts with no conversation id given: the clock reads
    1700000000.25 at the start and 1700000004.25 at the end, and all three
    POSTs carry [conv-1700000000]. *)
Example retries_keep_conversation_id :
  let w' := snd (execute_tool client0 "execute_bash" JNull None None
                   (world0 (fun _ => Responded busy))) in
  py_int (now w') = 1700000004 /\
  (fun p => p !! "conversation_id") <$> posted_payloads (trace w') =
    replicate 3 (Some (JStr "conv-1700000000")).
Proof. split; vm_compute; reflexivity. Qed.

(** C10: with [max_retries <= 0] the loop body never runs: [execute_tool]
    makes no HTTP call, raises nothing, leaves the world as it was and
    returns [None]. *)
Theorem C10_no_attempts_returns_none self tool parameters instance_id
    conversation_id w :
  max_retries self <= 0 ->
  execute_tool self tool parameters instance_id conversation_id w =
    (Ok JNull, w).
Proof.
  intros Hmax. rewrite execute_tool_eq, py_range_nil by done. reflexivity.
Qed.

Lemma C10_no_attempts_returns_none_witness :
  execute_tool (mkClient "http://vm:8000" "k" 60 0 2 (make_headers "k"))
               "execute_bash" JNull None None
               (world0 (fun _ => Responded fine))
  = (Ok JNull, world0 (fun _ => Responded fine)).
Proof.
  apply (C10_no_attempts_returns_none
           (mkClient "http://vm:8000" "k" 60 0 2 (make_headers "k"))).
  simpl. lia.
Defined.

(** ** The wrappers *)

(** C7: [execute_bash] is [execute_tool] with the tool name fixed and the
    command as the only parameter; [edit_file] is [execute_tool] with a
    parameters dictionary of exactly the four keys [path],
    [new_content_draft], [start] and [end], holding the arguments as given,
    with 1 and -1 when [start] and [end] are omitted; an [end] of -1 goes
    out as -1. *)
Theorem C7_wrappers_delegate self instance_id conversation_id :
  (forall command,
     execute_bash self command instance_id conversation_id =
     execute_tool self "execute_bash" (JDict {["command" := JStr command]})
                  instance_id conversation_id) /\
  (forall path new_content_draft start end_,
     exists d : gmap string Json,
       edit_file self path new_content_draft start end_ instance_id
                 conversation_id =
       execute_tool self "edit_file" (JDict d) instance_id conversation_id /\
       d !! "path" = Some (JStr path) /\
       d !! "new_content_draft" = Some (JStr new_content_draft) /\
       d !! "start" = Some (JInt (default 1 start)) /\
       d !! "end" = Some (JInt (default (-1) end_)) /\
       dom d = {["path"; "new_content_draft"; "start"; "end"]} /\
       (end_ = None \/ end_ = Some (-1) -> d !! "end" = Some (JInt (-1)))).
Proof.
  split; [done |].
  intros path draft start end_. eexists. split; [reflexivity |].
  split_and!; try by simplify_map_eq.
  intros [-> | ->]; by simplify_map_eq.
Qed.

(** C7 at work: the payload on the wire for [edit_file] with the defaults. *)
Lemma C7_wrappers_delegate_witness :
  exists d : gmap string Json,
    edit_file client0 "a.py" "x = 1" None None None (Some "c1") =
    execute_tool client0 "edit_file" (JDict d) None (Some "c1") /\
    d !! "start" = Some (JInt 1) /\ d !! "end" = Some (JInt (-1)).
Proof.
  destruct (C7_wrappers_delegate client0 None (Some "c1")) as [_ H].
  destruct (H "a.py" "x = 1" None None)
    as (d & Hrun & _ & _ & Hstart & _ & _ & Hend).
  exists d. split_and!; [exact Hrun | exact Hstart | apply Hend; by left].
Defined.

Example execute_bash_echo_hi :
  posted_payloads
    (trace (snd (execute_bash client0 "echo hi" None (Some "c1")
                   (world0 (fun _ => Responded fine)))))
  = [ <["conversation_id" := JStr "c1"]>
        (<["parameters" := JDict {["command" := JStr "echo hi"]}]>
           {["tool" := JStr "execute_bash"]}) ].
Proof. reflexivity. Qed.

(** ** The synthesized conversation id *)

Lemma pretty_N_char_digit x : is_digit (pretty_N_char x) = true.
Proof. unfold pretty_N_char. by repeat case_match. Qed.

Lemma pretty_N_go_digits x :
  forall s, all_digits s = true -> all_digits (pretty_N_go x s) = true.
Proof.
  induction (N.lt_wf_0 x) as [x _ IH]; intros s Hs.
  assert (x = 0 \/ 0 < x)%N as [-> | Hx] by lia.
  - by rewrite pretty_N_go_0.
  - rewrite pretty_N_go_step by done.
    apply IH; [by apply N.div_lt |].
    simpl. by rewrite pretty_N_char_digit, Hs.
Qed.

Lemma pretty_N_go_nonempty x :
  forall s, s <> EmptyString -> pretty_N_go x s <> EmptyString.
Proof.
  induction (N.lt_wf_0 x) as [x _ IH]; intros s Hs.
  assert (x = 0 \/ 0 < x)%N as [-> | Hx] by lia.
  - by rewrite pretty_N_go_0.
  - rewrite pretty_N_go_step by done. apply IH; [by apply N.div_lt | done].
Qed.

Lemma pretty_pos_digits (p : positive) :
  nonempty_digits (pretty (N.pos p)) = true.
Proof.
  unfold pretty, pretty_N. rewrite decide_False by done.
  assert (Hne : pretty_N_go (N.pos p) "" <> EmptyString).
  { rewrite pretty_N_go_step by done. by apply pretty_N_go_nonempty. }
  pose proof (pretty_N_go_digits (N.pos p) "" eq_refl) as Hd.
  unfold nonempty_digits. by destruct (pretty_N_go (N.pos p) "").
Qed.

Lemma nonempty_digits_integer s :
  nonempty_digits s = true -> is_integer_literal s = true.
Proof.
  destruct s as [| c s']; [done |]. intros H. unfold is_integer_literal.
  case_bool_decide as Hc; [| done].
  subst c. by simpl in H.
Qed.

Lemma str_int_integer z : is_integer_literal (str_int z) = true.
Proof.
  unfold str_int, pretty, pretty_Z. destruct z as [| p | p].
  - done.
  - apply nonempty_digits_integer, pretty_pos_digits.
  - apply (pretty_pos_digits p).
Qed.

Lemma str_int_nonneg_digits z : 0 <= z -> nonempty_digits (str_int z) = true.
Proof.
  unfold str_int, pretty, pretty_Z. destruct z as [| p | p]; [done | | lia].
  intros _. apply pretty_pos_digits.
Qed.

Lemma str_int_inj z1 z2 : str_int z1 = str_int z2 -> z1 = z2.
Proof. unfold str_int. apply (inj pretty). Qed.

Lemma py_int_floor x : (0 <= x)%Q -> py_int x = Qfloor x.
Proof.
  destruct x as [n d]. unfold Qle, py_int, Qfloor; simpl. intros H.
  apply Z.quot_div_nonneg; lia.
Qed.

(** C5: with no conversation id given, every POST of the call carries
    [conv-] followed by [int(time.time())] as read when the call starts;
    that string matches [conv-<integer>]; two starting clocks that truncate
    to different whole seconds give different ids, and two that truncate to
    the same second give the same id.  For a clock at or after the epoch
    the integer is the floor of the clock and is written with digits only. *)
Theorem C5_default_conversation_id self tool parameters instance_id w :
  let cid := "conv-" +:+ str_int (py_int (now w)) in
  (exists o w' k evs payload,
     execute_tool self tool parameters instance_id None w = (o, w') /\
     trace w' = trace w ++ evs /\
     posted_payloads evs = replicate k payload /\
     (1 <= max_retries self -> (1 <= k)%nat) /\
     payload !! "conversation_id" = Some (JStr cid)) /\
  resolve_conversation_id None w = (Ok cid, w) /\
  matches_conv_pattern cid = true /\
  (forall w2, py_int (now w2) <> py_int (now w) ->
              fst (resolve_conversation_id None w2) <> Ok cid) /\
  (forall w2, py_int (now w2) = py_int (now w) ->
              fst (resolve_conversation_id None w2) = Ok cid) /\
  ((0 <= now w)%Q ->
   py_int (now w) = Qfloor (now w) /\
   nonempty_digits (str_int (py_int (now w))) = true).
Proof.
  intros cid. split_and!.
  - destruct (execute_tool_run self tool parameters instance_id None w)
      as (o & w' & k & evs & Hrun & _ & Ht & _ & Hpay & Hk).
    exists o, w', k, evs. eexists. split_and!; try done.
    apply build_payload_fixed_keys.
  - done.
  - unfold matches_conv_pattern, cid. simpl. apply str_int_integer.
  - intros w2 Hne Heq. apply Hne. unfold cid in Heq. simpl in Heq.
    by simplify_eq; apply str_int_inj.
  - intros w2 Heq. unfold cid. simpl. by rewrite Heq.
  - intros Hpos. pose proof (py_int_floor _ Hpos) as Hfl. split; [done |].
    apply str_int_nonneg_digits. rewrite Hfl.
    change 0 with (Qfloor 0). by apply Qfloor_resp_le.
Qed.

(** C5 at work: two calls half a second apart in one second, and a third a
    second later. *)
Lemma C5_default_conversation_id_witness :
  fst (resolve_conversation_id None (mkWorld (fun _ => Responded fine)
                                             1700000000.75%Q 0 []))
    = Ok "conv-1700000000" /\
  fst (resolve_conversation_id None (mkWorld (fun _ => Responded fine)
                                             1700000001.25%Q 0 []))
    <> Ok "conv-1700000000" /\
  py_int (now (world0 (fun _ => Responded fine))) = 1700000000.
Proof.
  destruct (C5_default_conversation_id client0 "execute_bash" JNull None
              (world0 (fun _ => Responded fine)))
    as (_ & _ & _ & Hdiff & Hsame & Hfloor).
  split_and!.
  - apply (Hsame (mkWorld (fun _ => Responded fine) 1700000000.75%Q 0 [])).
    reflexivity.
  - apply (Hdiff (mkWorld (fun _ => Responded fine) 1700000001.25%Q 0 [])).
    vm_compute. discriminate.
  - destruct Hfloor as [Hfl _]; [vm_compute; discriminate |].
    rewrite Hfl. reflexivity.
Defined.

(** ** More on the retry loop *)

Lemma attempt_body_failed self payload attempt w ev detail :
  attempt_failure self attempt (net w (sent w)) = Some (ev, detail) ->
  attempt_body self payload attempt w =
    sleep_or_fail self attempt detail (emit ev (posted self payload w)).
Proof.
  rewrite attempt_body_eq. unfold attempt_failure, http_outcome.
  destruct (net w (sent w)) as [r | msg | msg].
  - case_bool_decide.
    + destruct (json r) as [v | e]; [done |].
      destruct (is_request_exception e); [| done]. by intros [= <- <-].
    + by intros [= <- <-].
  - by intros [= <- <-].
  - case_bool_decide; [done |]. by intros [= <- <-].
Qed.

(** A run of failed attempts, none of them the last one allowed, is one
    POST, one log line and one sleep each; the loop then goes on with the
    attempts that remain. *)
Lemma retry_loop_failures self payload w0 k :
  forall a w,
    net w = net w0 -> sent w = (sent w0 + a)%nat ->
    0 <= retry_delay self ->
    Z.of_nat (a + k) < max_retries self ->
    (forall i, (a <= i < a + k)%nat ->
       attempt_failure self (Z.of_nat i) (net w0 (sent w0 + i)%nat) <> None) ->
    exists w1,
      net w1 = net w0 /\ sent w1 = (sent w0 + a + k)%nat /\
      trace w1 = trace w ++ flat_map (attempt_events self payload w0) (seq a k) /\
      forall rest,
        retry_loop self payload ((Z.of_nat <$> seq a k) ++ rest) w =
        retry_loop self payload rest w1.
Proof.
  induction k as [| k IH]; intros a w Hnet Hsent Hd Hmax Hfail.
  - exists w. simpl. rewrite app_nil_r, Nat.add_0_r. done.
  - destruct (attempt_failure self (Z.of_nat a) (net w0 (sent w0 + a)%nat))
      as [[ev detail] |] eqn:Ef; [| by destruct (Hfail a ltac:(lia))].
    set (w1 := mkWorld (net w) (now w + inject_Z (retry_delay self))%Q
                 (S (sent w))
                 (trace w ++ [post_event self payload; ev;
                              ESleep (retry_delay self)])).
    assert (Hbody : attempt_body self payload (Z.of_nat a) w =
                    (Ok Continue, w1)).
    { rewrite (attempt_body_failed _ _ _ _ ev detail)
        by (by rewrite Hnet, Hsent).
      rewrite sleep_or_fail_retry by (done || lia).
      unfold w1, emit, posted; simpl. by rewrite <- !app_assoc. }
    destruct (IH (S a) w1) as (w2 & Hn2 & Hs2 & Ht2 & Hrest).
    + done.
    + subst w1; simpl. lia.
    + done.
    + lia.
    + intros i Hi. apply Hfail. lia.
    + exists w2. split_and!.
      * done.
      * lia.
      * rewrite Ht2. subst w1; simpl. rewrite <- app_assoc. f_equal.
        unfold attempt_events at 2. rewrite Ef.
        rewrite bool_decide_true by lia. done.
      * intros rest. cbn [seq fmap list_fmap app retry_loop].
        unfold bind at 1. rewrite Hbody. apply Hrest.
Qed.

Lemma attempt_body_continue self payload attempt w w1 :
  attempt_body self payload attempt w = (Ok Continue, w1) ->
  attempt < max_retries self - 1.
Proof.
  rewrite attempt_body_eq. intros H.
  assert (Hsf : forall detail w0,
            sleep_or_fail self attempt detail w0 = (Ok Continue, w1) ->
            attempt < max_retries self - 1).
  { intros detail w0 E.
    destruct (sleep_or_fail_spec self attempt detail w0)
      as [(Ha & _) | [(Ha & _) | (_ & E')]]; [done.. |].
    rewrite E' in E. by simplify_eq. }
  destruct (net w (sent w)) as [r | msg | msg];
    [| by eapply Hsf | case_bool_decide; [by simplify_eq | by eapply Hsf]].
  case_bool_decide; [| by eapply Hsf].
  destruct (json r) as [v | e]; [by simplify_eq |].
  destruct (is_request_exception e); [by eapply Hsf | by simplify_eq].
Qed.

(** How a pass through the loop body can raise. *)
Lemma attempt_body_raises self payload attempt w e w1 :
  attempt_body self payload attempt w = (Raise e, w1) ->
  (max_retries self - 1 <= attempt /\
   exists detail, e = PyException (failure_msg self detail))
  \/ (retry_delay self < 0 /\
      e = ValueError "sleep length must be non-negative")
  \/ (exists r, net w (sent w) = Responded r /\ status_code r = 200 /\
                json r = Raise e /\ is_request_exception e = false)
  \/ (timeout self <= 0 /\ e = invalid_timeout (timeout self)).
Proof.
  rewrite attempt_body_eq. intros H.
  assert (Hsf : forall detail w0,
            sleep_or_fail self attempt detail w0 = (Raise e, w1) ->
            (max_retries self - 1 <= attempt /\
             exists detail, e = PyException (failure_msg self detail))
            \/ (retry_delay self < 0 /\
                e = ValueError "sleep length must be non-negative")).
  { intros detail w0 E.
    destruct (sleep_or_fail_spec self attempt detail w0)
      as [(_ & _ & E') | [(_ & Hd & E') | (Ha & E')]];
      rewrite E' in E; simplify_eq.
    - by right.
    - left. split; [done |]. by exists detail. }
  destruct (net w (sent w)) as [r | msg | msg].
  - case_bool_decide as H200.
    + destruct (json r) as [v | e0] eqn:Ej; [by simplify_eq |].
      destruct (is_request_exception e0) eqn:Er.
      * apply Hsf in H. tauto.
      * simplify_eq. right; right; left. by exists r.
    + apply Hsf in H. tauto.
  - apply Hsf in H. tauto.
  - case_bool_decide as Htmo.
    + simplify_eq. by right; right; right.
    + apply Hsf in H. tauto.
Qed.

(** With the attempts numbered up to [max_retries - 1], the loop does not
    run off its end. *)
Lemma retry_loop_no_fallthrough self payload k :
  forall a w w',
    max_retries self = Z.of_nat (a + k) -> (1 <= k)%nat ->
    retry_loop self payload (Z.of_nat <$> seq a k) w <> (Ok None, w').
Proof.
  induction k as [| k IH]; intros a w w' Hmax Hk H; [lia |].
  cbn [seq fmap list_fmap retry_loop] in H. unfold bind in H.
  destruct (attempt_body self payload (Z.of_nat a) w) as [[c | e] w1] eqn:E;
    [| by simplify_eq].
  destruct c as [v |]; [unfold ret in H; by simplify_eq |].
  apply attempt_body_continue in E.
  apply (IH (S a) w1 w'); [lia | lia | done].
Qed.

(** What the loop raises never is a [RequestException]. *)
Lemma retry_loop_raises_wrapped self payload attempts :
  forall w e w',
    retry_loop self payload attempts w = (Raise e, w') ->
    is_request_exception e = false.
Proof.
  induction attempts as [| a rest IH]; intros w e w' H; simpl in H.
  - unfold ret in H. by simplify_eq.
  - unfold bind in H.
    destruct (attempt_body self payload a w) as [[c | e1] w1] eqn:E.
    + destruct c as [v |]; [unfold ret in H; by simplify_eq |].
      by eapply IH.
    + simplify_eq.
      apply attempt_body_raises in E
        as [(_ & detail & ->) | [(_ & ->) | [(r & _ & _ & _ & Hr) | (_ & ->)]]];
        done.
Qed.


Lemma py_range_split (n : Z) (k : nat) :
  Z.of_nat k < n ->
  py_range n =
    (Z.of_nat <$> seq 0 k) ++
    Z.of_nat k :: (Z.of_nat <$> seq (S k) (Z.to_nat n - S k)).
Proof.
  intros Hk. unfold py_range.
  replace (Z.to_nat n) with (k + S (Z.to_nat n - S k))%nat at 1 by lia.
  by rewrite seq_app, fmap_app.
Qed.

(** X1: with [max_retries = n >= 1] and a delay that can be slept, if every
    attempt fails (a status other than 200, a network failure, or a 200
    whose decoding raises a [RequestException], in any mix), [execute_tool]
    makes [n] POSTs and raises its own exception carrying the detail of the
    last failure; the trace is, attempt by attempt, the POST, the log line
    of that attempt and, except after the last attempt, the sleep. *)
Theorem X1_budget_exhausted self tool parameters instance_id
    conversation_id w (n : nat) :
  max_retries self = Z.of_nat n -> (1 <= n)%nat -> 0 <= retry_delay self ->
  (forall i, (i < n)%nat ->
     attempt_failure self (Z.of_nat i) (net w (sent w + i)%nat) <> None) ->
  let payload := build_payload tool parameters instance_id
                   (conversation_id_at w conversation_id) in
  exists w' ev detail,
    execute_tool self tool parameters instance_id conversation_id w =
      (Raise (PyException
                ("Failed to execute tool after " +:+ str_int (Z.of_nat n)
                   +:+ " attempts: " +:+ detail)), w') /\
    attempt_failure self (Z.of_nat (n - 1)) (net w (sent w + (n - 1))%nat) =
      Some (ev, detail) /\
    sent w' = (sent w + n)%nat /\
    trace w' =
      trace w ++ flat_map (attempt_events self payload w) (seq 0 n).
Proof.
  intros Hmax Hn Hd Hfail payload.
  destruct n as [| m]; [lia |].
  replace (S m - 1)%nat with m by lia.
  destruct (attempt_failure self (Z.of_nat m) (net w (sent w + m)%nat))
    as [[ev detail] |] eqn:Ef; [| by destruct (Hfail m ltac:(lia))].
  destruct (retry_loop_failures self payload w m 0%nat w)
    as (w1 & Hn1 & Hs1 & Ht1 & Hrest); [done | lia | done | lia | |].
  { intros i Hi. apply Hfail. lia. }
  rewrite Nat.add_0_r in Hs1.
  exists (emit ev (posted self payload w1)), ev, detail.
  rewrite execute_tool_eq. fold payload.
  rewrite (py_range_split _ m), Hmax by lia.
  replace (Z.to_nat (Z.of_nat (S m)) - S m)%nat with 0%nat by lia.
  rewrite Hrest. cbn [seq fmap list_fmap retry_loop]. unfold bind at 1.
  rewrite (attempt_body_failed _ _ _ _ ev detail) by (by rewrite Hn1, Hs1).
  rewrite sleep_or_fail_last by lia.
  unfold failure_msg. rewrite Hmax.
  split_and!; [done | done | simpl; lia |].
  unfold emit, posted. cbn [trace].
  change (0%nat :: seq 1 m) with (seq 0 (S m)).
  rewrite Ht1, seq_S, flat_map_app, <- !app_assoc.
  do 2 f_equal. cbn [flat_map]. unfold attempt_events.
  rewrite Nat.add_0_l, Ef, bool_decide_false by lia. by rewrite !app_nil_r.
Qed.

Lemma X1_budget_exhausted_witness :
  exists w' ev detail,
    execute_tool client0 "execute_bash" JNull None (Some "c1")
                 (world0 (fun _ => Failed "Read timed out")) =
      (Raise (PyException
                ("Failed to execute tool after " +:+ str_int 3
                   +:+ " attempts: " +:+ detail)), w') /\
    Some (error_event client0 2 (RequestException "Read timed out"),
          "Read timed out") = Some (ev, detail) /\
    sent w' = 3%nat /\
    trace w' =
      [] ++ flat_map
              (attempt_events client0
                 (build_payload "execute_bash" JNull None "c1")
                 (world0 (fun _ => Failed "Read timed out")))
              (seq 0 3).
Proof.
  apply (X1_budget_exhausted client0 "execute_bash" JNull None (Some "c1")
           (world0 (fun _ => Failed "Read timed out")) 3).
  - reflexivity.
  - lia.
  - simpl; lia.
  - intros i _. discriminate.
Defined.

(** X2: if the first [k] attempts fail, with [k] below [max_retries], and
    the next POST is answered 200 with a body that decodes to [v], then
    [execute_tool] returns [v] after [k + 1] POSTs; each failed attempt is
    followed by one sleep and nothing follows the successful POST. *)
Theorem X2_retry_then_success self tool parameters instance_id
    conversation_id w (k : nat) r v :
  Z.of_nat k < max_retries self -> 0 <= retry_delay self ->
  (forall i, (i < k)%nat ->
     attempt_failure self (Z.of_nat i) (net w (sent w + i)%nat) <> None) ->
  net w (sent w + k)%nat = Responded r -> status_code r = 200 ->
  json r = Ok v ->
  let payload := build_payload tool parameters instance_id
                   (conversation_id_at w conversation_id) in
  exists w',
    execute_tool self tool parameters instance_id conversation_id w =
      (Ok v, w') /\
    sent w' = (sent w + k + 1)%nat /\
    trace w' =
      trace w ++ flat_map (attempt_events self payload w) (seq 0 k)
              ++ [post_event self payload] /\
    schedule (flat_map (attempt_events self payload w) (seq 0 k)) =
      flat_map (fun _ => [post_event self payload;
                          ESleep (retry_delay self)]) (seq 0 k).
Proof.
  intros Hk Hd Hfail Hr H200 Hv payload.
  destruct (retry_loop_failures self payload w k 0%nat w)
    as (w1 & Hn1 & Hs1 & Ht1 & Hrest); [done | lia | done | lia | |].
  { intros i Hi. apply Hfail. lia. }
  rewrite Nat.add_0_r in Hs1.
  exists (posted self payload w1).
  rewrite execute_tool_eq. fold payload.
  rewrite (py_range_split _ k), Hrest by done.
  cbn [retry_loop]. unfold bind at 1.
  rewrite (attempt_body_success _ _ _ _ r v) by (by rewrite ?Hn1, ?Hs1).
  split_and!; [done | simpl; lia | simpl; by rewrite Ht1, <- app_assoc |].
  assert (Hgen : forall j a,
    (a + j <= k)%nat ->
    schedule (flat_map (attempt_events self payload w) (seq a j)) =
    flat_map (fun _ => [post_event self payload; ESleep (retry_delay self)])
             (seq a j)).
  { induction j as [| j IH]; intros a Ha; [done |].
    cbn [seq flat_map]. unfold schedule in *.
    rewrite List.filter_app, IH by lia.
    unfold attempt_events at 1.
    destruct (attempt_failure _ _ _) as [[ev d] |] eqn:Ef;
      [| by destruct (Hfail a ltac:(lia))].
    rewrite bool_decide_true by lia.
    assert (is_network ev || is_sleep ev = false) as Hev.
    { unfold attempt_failure in Ef.
      destruct (http_outcome _ _) as [r0 | e0];
        repeat case_match; by simplify_eq. }
    simpl. by rewrite Hev. }
  apply Hgen. lia.
Qed.

Lemma X2_retry_then_success_witness :
  let w := world0 (flaky 2 fine) in
  let payload := build_payload "execute_bash" JNull None "c1" in
  exists w',
    execute_tool client0 "execute_bash" JNull None (Some "c1") w =
      (Ok (JDict ∅), w') /\
    sent w' = 3%nat /\
    trace w' =
      [] ++ flat_map (attempt_events client0 payload w) (seq 0 2)
         ++ [post_event client0 payload] /\
    schedule (flat_map (attempt_events client0 payload w) (seq 0 2)) =
      flat_map (fun _ => [post_event client0 payload; ESleep 2]) (seq 0 2).
Proof.
  apply (X2_retry_then_success client0 "execute_bash" JNull None (Some "c1")
           (world0 (flaky 2 fine)) 2 fine (JDict ∅)).
  - simpl; lia.
  - simpl; lia.
  - intros i Hi. destruct i as [| [| i]]; [discriminate | discriminate | lia].
  - reflexivity.
  - reflexivity.
  - reflexivity.
Defined.

(** X3: whatever the network answers, one call of [execute_tool] makes at
    most [max_retries] HTTP calls, at least one when [max_retries >= 1], and
    each of them is a POST to the execute path with the client's headers
    and timeout: it never issues a GET. *)
Theorem X3_call_budget self tool parameters instance_id conversation_id w :
  exists o w' k evs payload,
    execute_tool self tool parameters instance_id conversation_id w = (o, w') /\
    sent w' = (sent w + k)%nat /\
    trace w' = trace w ++ evs /\
    (k <= Z.to_nat (max_retries self))%nat /\
    (1 <= max_retries self -> (1 <= k)%nat) /\
    network_calls evs =
      replicate k (EPost (server_url self +:+ "/api/v1/execute")
                         (headers self) payload (timeout self)).
Proof.
  destruct (execute_tool self tool parameters instance_id conversation_id w)
    as [o w'] eqn:E.
  apply execute_tool_frame in E
    as (k & evs & (_ & Hs & Ht) & Hnet & _ & Hk1 & Hk2).
  by eexists o, w', k, evs, _.
Qed.

(** X4: no [RequestException] leaves [execute_tool]: a network failure or a
    decoding failure of that class is either retried or, on the last
    attempt, replaced by the module's own exception. *)
Theorem X4_request_exceptions_wrapped self tool parameters instance_id
    conversation_id w e w' :
  execute_tool self tool parameters instance_id conversation_id w =
    (Raise e, w') ->
  is_request_exception e = false.
Proof.
  rewrite execute_tool_eq.
  destruct (retry_loop self _ _ w) as [[r | e1] w1] eqn:E; [done |].
  intros [= <- <-]. by eapply retry_loop_raises_wrapped.
Qed.

Lemma X4_request_exceptions_wrapped_witness :
  is_request_exception
    (PyException "Failed to execute tool after 3 attempts: Read timed out")
  = false.
Proof.
  apply (X4_request_exceptions_wrapped client0 "execute_bash" JNull None
           (Some "c1") (world0 (fun _ => Failed "Read timed out")) _
           (snd (execute_tool client0 "execute_bash" JNull None (Some "c1")
                   (world0 (fun _ => Failed "Read timed out"))))).
  reflexivity.
Defined.

(** X5: with [max_retries >= 1], a value returned by [execute_tool] is
    always the decoded body of a 200 answer to the last POST made; the end
    of the function, which would return [None], is never reached. *)
Theorem X5_returns_only_decoded_200 self tool parameters instance_id
    conversation_id w v w' :
  1 <= max_retries self ->
  execute_tool self tool parameters instance_id conversation_id w =
    (Ok v, w') ->
  exists r, (sent w < sent w')%nat /\
            net w (sent w' - 1)%nat = Responded r /\
            status_code r = 200 /\ json r = Ok v.
Proof.
  intros Hmax. rewrite execute_tool_eq.
  destruct (retry_loop self _ _ w) as [[res | e1] w1] eqn:E; [| done].
  intros [= <- <-]. destruct res as [v1 |].
  - by eapply retry_loop_returns.
  - exfalso. unfold py_range in E.
    eapply (retry_loop_no_fallthrough self _ (Z.to_nat (max_retries self))
              0%nat); [| | exact E]; lia.
Qed.

Lemma X5_returns_only_decoded_200_witness :
  exists r, (0 < 3)%nat /\ flaky 2 fine (3 - 1)%nat = Responded r /\
            status_code r = 200 /\ json r = Ok (JDict ∅).
Proof.
  apply (X5_returns_only_decoded_200 client0 "execute_bash" JNull None
           (Some "c1") (world0 (flaky 2 fine)) (JDict ∅)
           (snd (execute_tool client0 "execute_bash" JNull None (Some "c1")
                   (world0 (flaky 2 fine))))).
  - simpl; lia.
  - reflexivity.
Defined.



Lemma sleep_or_fail_negative self attempt detail w :
  attempt < max_retries self - 1 -> retry_delay self < 0 ->
  sleep_or_fail self attempt detail w =
    (Raise (ValueError "sleep length must be non-negative"), w).
Proof.
  intros Ha Hd. unfold sleep_or_fail.
  rewrite bool_decide_true by done.
  unfold bind, time_sleep. by rewrite bool_decide_true by done.
Qed.

(** X7: a negative [retry_delay] switches retrying off: with at least two
    attempts allowed, a first attempt that fails is followed by the sleep,
    which raises [ValueError]; [execute_tool] ends with that error after
    its one POST and its one log line. *)
Theorem X7_negative_delay_stops_retrying self tool parameters instance_id
    conversation_id w ev detail :
  retry_delay self < 0 -> 2 <= max_retries self ->
  attempt_failure self 0 (net w (sent w)) = Some (ev, detail) ->
  let payload := build_payload tool parameters instance_id
                   (conversation_id_at w conversation_id) in
  exists w',
    execute_tool self tool parameters instance_id conversation_id w =
      (Raise (ValueError "sleep length must be non-negative"), w') /\
    sent w' = S (sent w) /\
    trace w' = trace w ++ [post_event self payload; ev].
Proof.
  intros Hd Hmax Hfail payload.
  exists (emit ev (posted self payload w)).
  rewrite execute_tool_eq. fold payload.
  rewrite (py_range_split _ 0) by (simpl; lia).
  cbn [seq fmap list_fmap app retry_loop]. unfold bind at 1.
  rewrite (attempt_body_failed _ _ _ _ ev detail) by done.
  rewrite sleep_or_fail_negative by (simpl; lia).
  split_and!; [done | done |].
  unfold emit, posted; simpl. by rewrite <- app_assoc.
Qed.

Lemma X7_negative_delay_stops_retrying_witness :
  let self := mkClient "http://vm:8000" "k" 60 3 (-1) (make_headers "k") in
  let w := world0 (fun _ => Responded busy) in
  exists w',
    execute_tool self "execute_bash" JNull None (Some "c1") w =
      (Raise (ValueError "sleep length must be non-negative"), w') /\
    sent w' = 1%nat /\
    trace w' =
      [] ++ [post_event self (build_payload "execute_bash" JNull None "c1");
             warning_event self 0 busy].
Proof.
  apply (X7_negative_delay_stops_retrying
           (mkClient "http://vm:8000" "k" 60 3 (-1) (make_headers "k"))
           "execute_bash" JNull None (Some "c1")
           (world0 (fun _ => Responded busy))
           (warning_event
              (mkClient "http://vm:8000" "k" 60 3 (-1) (make_headers "k"))
              0 busy)
           "busy").
  - simpl; lia.
  - simpl; lia.
  - reflexivity.
Defined.

Lemma build_payload_dom tool parameters instance_id conversation_id :
  dom (build_payload tool parameters instance_id conversation_id) =
    payload_keys instance_id.
Proof.
  unfold build_payload, payload_keys. destruct (truthy instance_id);
    rewrite !dom_insert_L, dom_singleton_L; set_solver.
Qed.

(** X8: the payload of every POST has exactly the keys [tool], [parameters]
    and [conversation_id], plus [instance_id] when one is sent; the tool
    name and the parameters go out as given, whatever the parameters are,
    and a conversation id that the caller gives goes out as given, the
    empty string included. *)
Theorem X8_payload_shape self tool parameters instance_id conversation_id w :
  exists o w' k evs payload,
    execute_tool self tool parameters instance_id conversation_id w = (o, w') /\
    trace w' = trace w ++ evs /\
    posted_payloads evs = replicate k payload /\
    dom payload = payload_keys instance_id /\
    payload !! "tool" = Some (JStr tool) /\
    payload !! "parameters" = Some parameters /\
    (forall c, conversation_id = Some c ->
               payload !! "conversation_id" = Some (JStr c)).
Proof.
  destruct (execute_tool_run self tool parameters instance_id
              conversation_id w)
    as (o & w' & k & evs & Hrun & _ & Ht & _ & Hpay & _).
  exists o, w', k, evs. eexists. split_and!; try done.
  - apply build_payload_dom.
  - apply build_payload_fixed_keys.
  - apply build_payload_fixed_keys.
  - intros c ->. apply build_payload_fixed_keys.
Qed.

Lemma X8_payload_shape_witness :
  exists k payload,
    posted_payloads
      (trace (snd (execute_tool client0 "execute_bash" (JList []) None
                     (Some "") (world0 (fun _ => Responded fine))))) =
      replicate k payload /\
    dom payload = {["tool"; "parameters"; "conversation_id"]} /\
    payload !! "parameters" = Some (JList []) /\
    payload !! "conversation_id" = Some (JStr "").
Proof.
  destruct (X8_payload_shape client0 "execute_bash" (JList []) None (Some "")
              (world0 (fun _ => Responded fine)))
    as (o & w' & k & evs & payload & Hrun & Ht & Hpay & Hdom & _ & Hp & Hc).
  exists k, payload. rewrite Hrun. simpl snd. rewrite Ht. split_and!.
  - exact Hpay.
  - exact Hdom.
  - exact Hp.
  - apply Hc. reflexivity.
Defined.

(** X9: [execute_python] is [execute_tool] for the tool
    [execute_ipython_cell]: every POST it makes carries that tool name and
    the parameters [{"code": code}], and the two ids are handled as by
    [execute_tool]. *)
Theorem X9_execute_python_payload self code instance_id conversation_id w :
  exists o w' k evs payload,
    execute_python self code instance_id conversation_id w = (o, w') /\
    execute_tool self "execute_ipython_cell"
                 (JDict {["code" := JStr code]}) instance_id conversation_id w
      = (o, w') /\
    trace w' = trace w ++ evs /\
    posted_payloads evs = replicate k payload /\
    (1 <= max_retries self -> (1 <= k)%nat) /\
    dom payload = payload_keys instance_id /\
    payload !! "tool" = Some (JStr "execute_ipython_cell") /\
    payload !! "parameters" = Some (JDict {["code" := JStr code]}).
Proof.
  destruct (execute_tool_run self "execute_ipython_cell"
              (JDict {["code" := JStr code]}) instance_id conversation_id w)
    as (o & w' & k & evs & Hrun & _ & Ht & _ & Hpay & Hk).
  exists o, w', k, evs. eexists. split_and!; try done.
  - apply build_payload_dom.
  - apply build_payload_fixed_keys.
  - apply build_payload_fixed_keys.
Qed.

(** ** Nothing is printed by the client *)





(** ** The constructor, then a call *)

(** X10: a client built by the constructor from [url] and [key] sends its
    probe to [url] without trailing slashes followed by [/api/health], and
    every POST of a later [execute_tool] to the same base followed by
    [/api/v1/execute]; all these requests carry the same two headers,
    [Authorization: Bearer key] and [Content-Type: application/json], and
    the same timeout; there are at most [max_retries] POSTs. *)
Theorem X10_constructed_client_requests url key tmo retries delay tool
    parameters instance_id conversation_id w :
  let base := rstrip slash url in
  exists o w' k evs payload hdrs,
    (self <- __init__ url key tmo retries delay ;;
     execute_tool self tool parameters instance_id conversation_id) w
      = (o, w') /\
    trace w' = trace w ++ evs /\
    sent w' = (sent w + 1 + k)%nat /\
    (k <= Z.to_nat (default 3%Z retries))%nat /\
    network_calls evs =
      EGet (base +:+ "/api/health") hdrs (default 60 tmo)
      :: replicate k (EPost (base +:+ "/api/v1/execute") hdrs payload
                            (default 60 tmo)) /\
    hdrs !! "Authorization" = Some ("Bearer " +:+ key) /\
    hdrs !! "Content-Type" = Some "application/json" /\
    dom hdrs = {["Authorization"; "Content-Type"]}.
Proof.
  intros base.
  assert (Hhdrs : make_headers key !! "Authorization"
                    = Some ("Bearer " +:+ key) /\
                  make_headers key !! "Content-Type"
                    = Some "application/json" /\
                  dom (make_headers key)
                    = ({["Authorization"; "Content-Type"]} : gset string)).
  { unfold make_headers. split_and!; [by simplify_map_eq.. |].
    rewrite dom_insert_L, dom_singleton_L. set_solver. }
  destruct Hhdrs as (Hauth & Hct & Hdom).
  destruct (init_cases url key tmo retries delay w)
    as (o1 & w1 & evs1 & Hinit & _ & _ & Hs1 & Ht1 & Hnet1 & _ & _ & Ho1).
  set (self := mkClient _ _ _ _ _ _) in *.
  unfold bind at 1. rewrite Hinit.
  destruct o1 as [c | e].
  - destruct Ho1 as (-> & _).
    destruct (execute_tool self tool parameters instance_id conversation_id
                w1) as [o w'] eqn:E.
    pose proof E as Hfr.
    apply execute_tool_frame in Hfr
      as (k & evs & (_ & Hs & Ht) & Hnet & _ & _ & Hk).
    exists o, w', k, ((health_event self :: evs1) ++ evs).
    eexists _, (make_headers key).
    split_and!; [done | | lia | exact Hk | | done..].
    + by rewrite Ht, Ht1, <- app_assoc.
    + unfold network_calls in *. rewrite List.filter_app, Hnet. simpl.
      by rewrite Hnet1.
  - exists (Raise e), w1, 0%nat, (health_event self :: evs1).
    exists ∅, (make_headers key).
    split_and!; [done | done | lia | lia | | done..].
    unfold network_calls in *. simpl. by rewrite Hnet1.
Qed.






(** ** The command line with parameters that are JSON *)

Lemma execute_tool_first_200 self tool parameters instance_id
    conversation_id w r v :
  1 <= max_retries self ->
  net w (sent w) = Responded r -> status_code r = 200 -> json r = Ok v ->
  execute_tool self tool parameters instance_id conversation_id w =
    (Ok v,
     posted self (build_payload tool parameters instance_id
                    (conversation_id_at w conversation_id)) w).
Proof.
  intros Hmax Hr H200 Hv. rewrite execute_tool_eq.
  rewrite (py_range_split _ 0) by (simpl; lia).
  cbn [seq fmap list_fmap app retry_loop]. unfold bind.
  by rewrite (attempt_body_success _ _ _ _ r v).
Qed.

Lemma main_valid_eq json_loads json_dumps args w p :
  json_loads (params args) = Some p ->
  exists lvl msg,
    main json_loads json_dumps args w =
      (result <- execute_tool (client_of args) (tool args) p (instance args)
                              None ;;
       print (json_dumps result 2))
        (probed (client_of args) lvl msg w).
Proof.
  intros Hp.
  destruct (init_run (server args) (key args) None None None w
              ltac:(simpl; lia))
    as (lvl & msg & Hinit).
  simpl in Hinit. fold (client_of args) in Hinit.
  exists lvl, msg. unfold main, bind at 1. by rewrite Hinit, Hp.
Qed.

(** X12: when the parameters are JSON and the first POST (the second HTTP
    call, after the probe) is answered 200 with a body that decodes to [v],
    [main] ends normally after these two calls and prints [v] dumped with
    indent 2, once, last.  The POST carries the tool and instance id of the
    command line, the decoded parameters, and a conversation id made from
    the clock. *)
Theorem X12_main_prints_result
    (json_loads : string -> option Json) (json_dumps : Json -> Z -> string)
    (args : Args) (w : World) p r v :
  json_loads (params args) = Some p ->
  net w (S (sent w)) = Responded r -> status_code r = 200 -> json r = Ok v ->
  let base := rstrip slash (server args) in
  let hdrs := make_headers (key args) in
  let payload := build_payload (tool args) p (instance args)
                   ("conv-" +:+ str_int (py_int (now w))) in
  exists lvl msg w',
    main json_loads json_dumps args w = (Ok tt, w') /\
    sent w' = (sent w + 2)%nat /\
    trace w' =
      trace w ++ [EGet (base +:+ "/api/health") hdrs 60;
                  ELog lvl msg;
                  EPost (base +:+ "/api/v1/execute") hdrs payload 60;
                  EPrint (json_dumps v 2)].
Proof.
  intros Hp Hr H200 Hv base hdrs payload.
  destruct (main_valid_eq json_loads json_dumps args w p Hp)
    as (lvl & msg & Hmain).
  exists lvl, msg. eexists. rewrite Hmain. unfold bind.
  rewrite (execute_tool_first_200 _ _ _ _ _ _ r v) by (done || (simpl; lia)).
  unfold print, emit, posted, probed. split_and!.
  - reflexivity.
  - simpl. lia.
  - simpl. by rewrite <- !app_assoc.
Qed.

Lemma X12_main_prints_result_witness :
  exists lvl msg w',
    main (decoder_accepting "{}" (JDict ∅)) (fun _ _ => "{}")
         (mkArgs "http://vm:8000/" "k" "execute_bash" "{}" (Some "django.1"))
         (world0 (fun _ => Responded fine)) = (Ok tt, w') /\
    sent w' = 2%nat /\
    trace w' =
      [] ++ [EGet "http://vm:8000/api/health" (make_headers "k") 60;
             ELog lvl msg;
             EPost "http://vm:8000/api/v1/execute" (make_headers "k")
                   (build_payload "execute_bash" (JDict ∅) (Some "django.1")
                                  "conv-1700000000") 60;
             EPrint "{}"].
Proof.
  apply (X12_main_prints_result (decoder_accepting "{}" (JDict ∅))
           (fun _ _ => "{}")
           (mkArgs "http://vm:8000/" "k" "execute_bash" "{}" (Some "django.1"))
           (world0 (fun _ => Responded fine)) (JDict ∅) fine (JDict ∅));
    reflexivity.
Defined.


